(** * otter-grader: point allocation, test-file construction and grade aggregation

    A shallow embedding of

      - [otter/test_files/abstract_test.py]: the [TestCase] tuple, the
        [TestFile] constructor, [TestFile.resolve_point_values] and the
        two reports [__repr__] and [_repr_html_];
      - [otter/grade/__init__.py]: the [main] entry point of Otter Grade;

    and a model of the container pool the specification describes,
    followed by the properties of the specification, stated over these
    definitions.

    Numbers.  Point values are Python numbers ([int] or [float]).  They
    are embedded as exact rationals ([Qc], rationals in lowest terms, with
    Leibniz equality), so the arithmetic below is the exact arithmetic the
    floating-point computation approximates; rounding is not represented,
    and the properties below do not rest on laws that rounding breaks.

    Exceptions.  A Python function that can raise returns a [result]. *)

From Stdlib Require Import QArith Qcanon Ascii String.
From stdpp Require Import base numbers strings option list.

Local Open Scope string_scope.
Local Open Scope list_scope.

(** ** Python exceptions and the error monad *)

Module Py.

Inductive exn : Type :=
| ValueError (msg : string)
| ZeroDivisionError
| AssertionError (msg : string)
| KeyError (key : string)
| Exception (msg : string).

Inductive result (A : Type) : Type :=
| Ok (a : A)
| Raise (e : exn).
Arguments Ok {A} a.
Arguments Raise {A} e.

(** Sequencing: the first exception raised ends the computation. *)
#[export] Instance result_ret : MRet result := fun _ a => Ok a.
#[export] Instance result_bind : MBind result := fun _ _ k m =>
  match m with
  | Ok a => k a
  | Raise e => Raise e
  end.

(** [sum(xs)]: Python's built-in, adding from the left starting at 0.
    The sum is exact; on [float] points Python rounds after every
    addition. *)
Definition sum (xs : list Qc) : Qc := fold_left Qcplus xs 0%Qc.

(** [x / n] for a number [x] and a length [n]: true division, raising
    [ZeroDivisionError] when the divisor is zero.  The quotient is exact;
    Python returns the nearest [float], and raises [OverflowError] for an
    [int] too large for a [float], which is not represented. *)
Definition truediv (x : Qc) (n : nat) : result Qc :=
  match n with
  | O => Raise ZeroDivisionError
  | S _ => Ok (x / Qc_of_Z (Z.of_nat n))%Qc
  end.

End Py.

(** ** otter/test_files/abstract_test.py *)

Module abstract_test.
Import Py.

(** [TestCase = namedtuple("TestCase", TestCase_fields, defaults=(None,) * 6)]:
    an immutable tuple, every field of which may be [None]. *)
Record TestCase : Type := mkTestCase {
  name : option string;
  body : option string;
  hidden : option bool;
  success_message : option string;
  failure_message : option string;
  points : option Qc
}.

(** [case._replace(points=p)]: a new tuple, equal to [case] but for [points]. *)
Definition _replace_points (case : TestCase) (p : Qc) : TestCase :=
  {| name := name case;
     body := body case;
     hidden := hidden case;
     success_message := success_message case;
     failure_message := failure_message case;
     points := Some p |}.

(** [TestCaseResult = namedtuple("TestCaseResult", ...)]. *)
Record TestCaseResult : Type := mkTestCaseResult {
  test_case : option TestCase;
  message : option string;
  passed : option bool;
  result_points : option Qc
}.

(** The message of the [ValueError] of [resolve_point_values], an f-string:
    the fixed text, then a colon and a space if [ctx] is not empty, then
    [ctx]. *)
Definition exceed_message (ctx : string) : string :=
  "Individual test case point values exceed total question value"
    +:+ (if decide (ctx = EmptyString) then EmptyString else ": ") +:+ ctx.

(** One iteration of [for i, case in enumerate(cases)]: the iterator reads
    the list as it is now, and [cases[i] = ...] stores by index. *)
Definition resolve_step (pts_per_unspecified_case : Qc)
    (cases : list TestCase) (i : nat) : list TestCase :=
  match cases !! i with
  | Some case =>
      match points case with
      | None => <[i := _replace_points case pts_per_unspecified_case]> cases
      | Some _ => cases
      end
  | None => cases
  end.

(** [TestFile.resolve_point_values(value, cases, ctx)]; [ctx] defaults
    to the empty string.  The Python function updates the list [cases] in
    place and returns [None]; here the final contents of the list are
    returned.  An exception is raised before the list is touched. *)
Definition resolve_point_values (value : Qc) (cases : list TestCase)
    (ctx : string) : result (list TestCase) :=
  let case_pts := points <$> cases in
  let total_specified := sum (omap id case_pts) in
  if decide (value < total_specified)%Qc then
    Raise (ValueError (exceed_message ctx))
  else
    let pts_left := (value - total_specified)%Qc in
    pts_per_unspecified_case ←
      truediv pts_left (length (filter (fun p => p = None) case_pts));
    Ok (fold_left (resolve_step pts_per_unspecified_case)
                  (seq 0 (length cases)) cases).

(** The instance variables set by [TestFile.__init__]. *)
Record TestFile : Type := mkTestFile {
  tf_name : string;
  tf_path : string;
  test_cases : list TestCase;
  values : list (option Qc);
  passed_all : option bool;
  all_or_nothing : bool;
  test_case_results : list TestCaseResult;
  grade : option Qc
}.

(** [TestFile.__init__(self, name, path, test_cases, value=1, all_or_nothing=True)].
    [resolve_point_values] is called without [ctx], so with its default,
    the empty string; [self.test_cases] is the list it has updated. *)
Definition __init__ (name path : string) (test_cases : list TestCase)
    (value : Qc) (all_or_nothing : bool) : result TestFile :=
  test_cases ← resolve_point_values value test_cases EmptyString;
  Ok {| tf_name := name;
        tf_path := path;
        test_cases := test_cases;
        values := points <$> test_cases;
        passed_all := None;
        all_or_nothing := all_or_nothing;
        test_case_results := [];
        grade := None |}.

(** *** Rendering

    The class attributes [html_result_pass_template], ... are jinja2
    templates, created with the default settings: text outside the tags
    is copied as it stands (line breaks and indentation included), nothing
    is escaped, [{{ e }}] prints [str(e)], and an attribute of [None] is
    undefined and prints as nothing.  Each template is embedded as the
    function that renders it. *)

(** A line break. *)
Definition NL : string := String "010"%char EmptyString.

(** The concatenation of the pieces a [{% for %}] loop prints. *)
Definition join (parts : list string) : string := foldr String.append EmptyString parts.

(** [{{ e }}] for an [e] that is a string or [None]. *)
Definition jinja_str (e : option string) : string := default "None" e.

(** [{{ test_case_result.test_case.name }}]. *)
Definition jinja_test_case_name (r : TestCaseResult) : string :=
  match test_case r with
  | Some c => jinja_str (name c)
  | None => EmptyString
  end.

(** The truth value of a flag that is [True], [False] or [None]. *)
Definition truth (b : option bool) : bool := default false b.

Definition html_result_pass_template (name : string) : string :=
  NL +:+ "    <p><strong>" +:+ name +:+ "</strong> passed!</p>" +:+ NL +:+ "    ".

Definition plain_result_pass_template (name : string) : string :=
  name +:+ " passed!".

Definition html_result_fail_template (name : string)
    (test_case_results : list TestCaseResult) : string :=
  NL +:+ "    <p><strong style='color: red;'>" +:+ name +:+ "</strong></p>"
  +:+ NL +:+ "    <p><strong>Test result:</strong></p>"
  +:+ NL +:+ "    "
  +:+ join ((fun test_case_result =>
               NL +:+ "        <p><em>" +:+ jinja_test_case_name test_case_result +:+ "</em>"
               +:+ NL +:+ "        "
               +:+ (if negb (truth (passed test_case_result)) then
                      NL +:+ "            <pre>" +:+ jinja_str (message test_case_result)
                      +:+ "</pre>" +:+ NL +:+ "        "
                    else
                      NL +:+ "            <pre>" +:+ jinja_str (message test_case_result)
                      +:+ "</pre>" +:+ NL +:+ "        ")
               +:+ NL +:+ "        </p>"
               +:+ NL +:+ "    ") <$> test_case_results)
  +:+ NL +:+ "    ".

Definition html_result_success_template (name : string)
    (test_case_results : list TestCaseResult) : string :=
  NL +:+ "    "
  +:+ join ((fun test_case_result =>
               NL +:+ "        <p><em>" +:+ jinja_test_case_name test_case_result +:+ ": </em>"
               +:+ NL +:+ "        "
               +:+ (if truth (passed test_case_result) then
                      "<pre>" +:+ jinja_str (message test_case_result) +:+ "</pre>"
                    else EmptyString)
               +:+ NL +:+ "        </p>"
               +:+ NL +:+ "    ") <$> test_case_results)
  +:+ NL +:+ "    ".

(** The template text is passed through [dedent], which removes the four
    spaces every line begins with. *)
Definition plain_result_fail_template (name : string)
    (test_case_results : list TestCaseResult) : string :=
  name +:+ " results:" +:+ NL
  +:+ join ((fun test_case_result =>
               if negb (truth (passed test_case_result)) then
                 NL +:+ jinja_str (message test_case_result)
               else EmptyString) <$> test_case_results).

(** [TestFile._repr_html_(self)]. *)
Definition _repr_html_ (self : TestFile) : string :=
  if truth (passed_all self) then
    html_result_pass_template (tf_name self)
    +:+ html_result_success_template (tf_name self) (test_case_results self)
  else
    html_result_fail_template (tf_name self) (test_case_results self).

(** [TestFile.__repr__(self)]. *)
Definition __repr__ (self : TestFile) : string :=
  if truth (passed_all self) then
    plain_result_pass_template (tf_name self)
    +:+ html_result_success_template (tf_name self) (test_case_results self)
  else
    plain_result_fail_template (tf_name self) (test_case_results self).

End abstract_test.

(** ** otter/grade/__init__.py *)

Module grade.
Import Py.

(** *** The pandas tables [main] works on

    A [DataFrame] is an ordered sequence of labelled columns over a
    common row index.  Only the operations [main] uses are embedded. *)

Inductive value : Type :=
| VStr (s : string)
| VNum (q : Qc).

Record DataFrame : Type := mkDataFrame {
  n_rows : nat;
  series : list (string * list value)
}.

(** [df.columns.tolist()]. *)
Definition columns (df : DataFrame) : list string := (series df).*1.

(** The rows handed to the function of [df.apply(f, axis=1)]: row [i]
    pairs every column label with the entry of that column at [i]. *)
Definition row (df : DataFrame) (i : nat) : list (string * value) :=
  omap (fun c => (fun v => (c.1, v)) <$> c.2 !! i) (series df).
Definition rows (df : DataFrame) : list (list (string * value)) :=
  row df <$> seq 0 (n_rows df).

(** [row[key]]. *)
Fixpoint row_getitem (r : list (string * value)) (key : string) : result value :=
  match r with
  | [] => Raise (KeyError key)
  | (k, v) :: r' => if decide (k = key) then Ok v else row_getitem r' key
  end.

(** [df.apply(f, axis=1)] for an [f] that returns a scalar: [f] is called
    on the rows in order, and an exception raised by [f] is not caught.
    (pandas treats a frame with no rows separately; the embedding is for
    frames with at least one row.) *)
Definition apply_axis1 (f : list (string * value) -> result value)
    (df : DataFrame) : result (list value) :=
  mapM f (rows df).

(** [df[key] = vals]: an existing column of that label is overwritten
    where it stands, otherwise the column is appended. *)
Definition setitem (df : DataFrame) (key : string) (vals : list value) : DataFrame :=
  if decide (key ∈ columns df) then
    {| n_rows := n_rows df;
       series := (fun c => if decide (c.1 = key) then (c.1, vals) else c) <$> series df |}
  else
    {| n_rows := n_rows df; series := series df ++ [(key, vals)] |}.

(** [df.drop(key, axis=1, inplace=True)]. *)
Definition drop_axis1 (df : DataFrame) (key : string) : result DataFrame :=
  if decide (key ∈ columns df) then
    Ok {| n_rows := n_rows df;
          series := filter (fun c => c.1 ≠ key) (series df) |}
  else Raise (KeyError key).

(** [df[keys]] for a list of labels. *)
Definition getitem_columns (df : DataFrame) (keys : list string) : result DataFrame :=
  cols ← mapM (fun key =>
                 match filter (fun c => c.1 = key) (series df) with
                 | [] => Raise (KeyError key)
                 | cs => Ok cs
                 end) keys;
  Ok {| n_rows := n_rows df; series := concat cols |}.

(** [cols[-1:] + cols[:-1]]. *)
Definition last_first {A} (cols : list A) : list A :=
  drop (length cols - 1) cols ++ take (length cols - 1) cols.

(** [os.path.join(a, b)] for a relative [b]. *)
Definition path_join (a b : string) : string :=
  if decide (a = EmptyString) then b
  else if decide (String.get (String.length a - 1) a = Some "/"%char) then a +:+ b
  else a +:+ "/" +:+ b.

(** *** Collaborators

    [main] calls functions of modules that are not part of this
    development ([.containers], [.metadata], [.utils], [..utils]) and
    writes a file.  Each such call is recorded as an [event]; what the
    call returns or raises is given by the [World]. *)

(** A metadata parser: the one method [main] uses. *)
Record Parser : Type := mkParser {
  file_to_id : value -> result value
}.

Inductive parser_class : Type :=
| GradescopeParser | CanvasParser | JSONParser | YAMLParser.

Inductive event : Type :=
| PruneImages (force : bool)
| AssertPathExists (paths : list (string * bool))
| NewParser (cls : parser_class) (arg : string)
| PrintLine (msg : string)
| LaunchGrade (autograder notebooks_dir : string) (verbose : bool)
    (num_containers : option nat) (scripts no_kill : bool)
    (output_path : string) (debug zips : bool) (image : string) (pdfs : bool)
| MergeCsv (dataframes : list DataFrame)
| ToCsv (path : string) (df : DataFrame).

Record World : Type := mkWorld {
  prune_images : bool -> result unit;
  assert_path_exists : list (string * bool) -> result unit;
  new_parser : parser_class -> string -> result Parser;
  launch_grade : string -> string -> bool -> option nat -> bool -> bool ->
                 string -> bool -> bool -> string -> bool ->
                 result (list DataFrame);
  merge_csv : list DataFrame -> result DataFrame;
  to_csv : string -> DataFrame -> result unit
}.

(** A run: the calls made so far, and the value returned or the
    exception raised. *)
Definition IO (A : Type) : Type := list event * result A.

#[export] Instance IO_ret : MRet IO := fun _ a => ([], Ok a).
#[export] Instance IO_bind : MBind IO := fun _ _ k m =>
  match m with
  | (t, Ok a) => let '(t', r) := k a in (t ++ t', r)
  | (t, Raise e) => (t, Raise e)
  end.

Definition call {A} (ev : event) (r : result A) : IO A := ([ev], r).
Definition pure {A} (r : result A) : IO A := ([], r).

(** [assert cond, msg]. *)
Definition assert_ (cond : bool) (msg : string) : IO unit :=
  pure (if cond then Ok () else Raise (AssertionError msg)).

(** [if verbose: print(msg)]. *)
Definition print_if (verbose : bool) (msg : string) : IO unit :=
  if verbose then call (PrintLine msg) (Ok ()) else mret ().

(** *** [main]

    The keyword arguments.  [json] and [yaml] are [False] ([None] here)
    or a path; [containers] is [None] or a number. *)
Record Args : Type := mkArgs {
  path : string;
  output_dir : string;
  autograder : string;
  gradescope : bool;
  canvas : bool;
  json : option string;
  yaml : option string;
  containers : option nat;
  scripts : bool;
  no_kill : bool;
  debug : bool;
  zips : bool;
  image : string;
  pdfs : bool;
  verbose : bool;
  prune : bool;
  force : bool
}.

(** [meta != False] for [json] and [yaml]; [if json:] is the truth value
    of the string. *)
Definition not_False (meta : option string) : bool := bool_decide (is_Some meta).
Definition truthy (meta : option string) : bool :=
  match meta with
  | Some s => negb (String.eqb s EmptyString)
  | None => false
  end.

(** Python's [sum] of a list of [bool]. *)
Definition sum_bool (bs : list bool) : nat := length (filter (fun b => b = true) bs).

Section main.
Variable w : World.
Variable a : Args.

(** Lines 51 to 113: argument checks, the metadata parser, the
    containers, and the merge of their tables.  Returns [meta_parser]
    and [output_df]. *)
Definition grade_submissions : IO (option Parser * DataFrame) :=
  _ ← assert_ (sum_bool [gradescope a; canvas a; not_False (json a); not_False (yaml a)] <=? 1)%nat
        "You can specify at most one metadata flag (-g, -j, -y, -c)";
  _ ← call (AssertPathExists [(path a, true); (output_dir a, true); (autograder a, false)])
        (assert_path_exists w [(path a, true); (output_dir a, true); (autograder a, false)]);
  _ ← (if truthy (json a)
       then call (AssertPathExists [(default EmptyString (json a), false)])
                 (assert_path_exists w [(default EmptyString (json a), false)])
       else mret ());
  _ ← (if truthy (yaml a)
       then call (AssertPathExists [(default EmptyString (yaml a), false)])
                 (assert_path_exists w [(default EmptyString (yaml a), false)])
       else mret ());
  meta_parser ←
    (if gradescope a then
       p ← call (NewParser GradescopeParser (path a)) (new_parser w GradescopeParser (path a));
       _ ← print_if (verbose a) "Found Gradescope metadata...";
       mret (Some p)
     else if canvas a then
       p ← call (NewParser CanvasParser (path a)) (new_parser w CanvasParser (path a));
       _ ← print_if (verbose a) "Found Canvas metadata...";
       mret (Some p)
     else if truthy (json a) then
       p ← call (NewParser JSONParser (default EmptyString (json a)))
                (new_parser w JSONParser (default EmptyString (json a)));
       _ ← print_if (verbose a) "Found JSON metadata...";
       mret (Some p)
     else if truthy (yaml a) then
       p ← call (NewParser YAMLParser (default EmptyString (yaml a)))
                (new_parser w YAMLParser (default EmptyString (yaml a)));
       _ ← print_if (verbose a) "Found YAML metadata...";
       mret (Some p)
     else mret None);
  _ ← print_if (verbose a) "Launching docker containers...";
  grade_dfs ←
    call (LaunchGrade (autograder a) (path a) (verbose a) (containers a) (scripts a)
            (no_kill a) (output_dir a) (debug a) (zips a) (image a) (pdfs a))
         (launch_grade w (autograder a) (path a) (verbose a) (containers a) (scripts a)
            (no_kill a) (output_dir a) (debug a) (zips a) (image a) (pdfs a));
  _ ← print_if (verbose a) "Combining grades and saving...";
  output_df ← call (MergeCsv grade_dfs) (merge_csv w grade_dfs);
  mret (meta_parser, output_df).

(** The nested [map_files_to_ids(row)]. *)
Definition map_files_to_ids (meta_parser : Parser)
    (r : list (string * value)) : result value :=
  file ← row_getitem r "file";
  file_to_id meta_parser file.

(** Lines 119 to 126: [if meta_parser is not None: ...]. *)
Definition add_identifier (meta_parser : option Parser)
    (output_df : DataFrame) : result DataFrame :=
  match meta_parser with
  | Some p =>
      identifier ← apply_axis1 (map_files_to_ids p) output_df;
      let output_df := setitem output_df "identifier" identifier in
      output_df ← drop_axis1 output_df "file";
      let cols := columns output_df in
      getitem_columns output_df (last_first cols)
  | None => Ok output_df
  end.

(** [main]: every argument is passed by keyword. *)
Definition main : IO unit :=
  if prune a then
    call (PruneImages (force a)) (prune_images w (force a))
  else
    '(meta_parser, output_df) ← grade_submissions;
    output_df ← pure (add_identifier meta_parser output_df);
    call (ToCsv (path_join (output_dir a) "final_grades.csv") output_df)
         (to_csv w (path_join (output_dir a) "final_grades.csv") output_df).

End main.

End grade.

(** ** The sandbox pool *)

Module SandboxPool.

(** Modelled from the spec: the scheduler that runs the submissions in
    containers ([launch_grade] of [otter.grade.containers]) is not part
    of this development.  The specification describes it as a pool of
    jobs, each in one of four lifecycle states, of which at most
    [concurrency_limit] are running; the pool starts the next queued job
    when a slot is free, and a running job ends as completed or, after a
    crash, a non-zero exit or a timeout, as failed. *)
Inductive job_state : Type := queued | running | completed | failed.

#[export] Instance job_state_eq_dec : EqDecision job_state.
Proof. solve_decision. Defined.

(** Modelled from the spec: the pool is the state of every submitted job,
    in submission order. *)
Abbreviation pool := (list job_state).

(** Modelled from the spec: [submit(jobs, concurrency_limit)] begins
    with every job queued. *)
Definition submit (jobs : nat) : pool := replicate jobs queued.

(** Modelled from the spec: the number of jobs in state [s]. *)
Definition count (s : job_state) (p : pool) : nat :=
  length (filter (fun x => x = s) p).

(** Modelled from the spec: the terminal states. *)
Definition terminal (s : job_state) : bool :=
  match s with
  | completed | failed => true
  | queued | running => false
  end.

(** Modelled from the spec: what can happen next.  The coordinator starts
    a job, or the sandbox of job [i] ends, normally or not. *)
Inductive action : Type :=
| Start
| Finish (i : nat) (crashed : bool).

(** Modelled from the spec: one scheduling step.  [Start] takes the
    first queued job (FIFO) and needs a free slot; [Finish] applies to a
    running job only. *)
Definition step (concurrency_limit : nat) (p : pool) (a : action) : option pool :=
  match a with
  | Start =>
      if decide (count running p < concurrency_limit) then
        '(i, _) ← list_find (fun x => x = queued) p;
        Some (<[i := running]> p)
      else None
  | Finish i crashed =>
      match p !! i with
      | Some running => Some (<[i := if crashed then failed else completed]> p)
      | _ => None
      end
  end.

(** Modelled from the spec: a run of the pool, the steps taken one after
    the other. *)
Fixpoint run (concurrency_limit : nat) (p : pool) (acts : list action) : option pool :=
  match acts with
  | [] => Some p
  | a :: acts => p' ← step concurrency_limit p a; run concurrency_limit p' acts
  end.

End SandboxPool.

(** ** Specification vocabulary *)

Import Py abstract_test.

Section allocation.

(** The sum of the points that are given explicitly. *)
Definition explicit_total (cases : list TestCase) : Qc :=
  sum (omap id (points <$> cases)).

(** The number of cases whose points are not given. *)
Definition unspecified (cases : list TestCase) : nat :=
  length (filter (fun p => p = None) (points <$> cases)).

(** What one case becomes when the unspecified cases get [p] points. *)
Definition allocate (p : Qc) (case : TestCase) : TestCase :=
  match points case with
  | None => _replace_points case p
  | Some _ => case
  end.

(** The fixed text of the over-allocation error. *)
Definition exceed_text : string :=
  "Individual test case point values exceed total question value".

(** A test case for the examples: a name, and integer points or [None]. *)
Definition case (n : string) (p : option Z) : TestCase :=
  mkTestCase (Some n) None None None None (Qc_of_Z <$> p).

(** [mentions s msg]: the text [s] occurs in [msg]. *)
Definition mentions (s msg : string) : bool :=
  bool_decide (is_Some (String.index 0 s msg)).

End allocation.

Import grade.

Section aggregation.

(** The entries of the column labelled [key], if there is one. *)
Definition column (df : DataFrame) (key : string) : option (list value) :=
  snd <$> head (filter (fun c => c.1 = key) (series df)).

(** A merged grade table, as [merge_csv] hands it to [main]: at least
    one row, distinct column labels, a [file] column, and as many entries
    in every column as there are rows. *)
Definition merged_grade_table (df : DataFrame) : bool :=
  bool_decide ((0 < n_rows df)%nat
               /\ NoDup (columns df)
               /\ "file" ∈ columns df
               /\ Forall (fun c => length c.2 = n_rows df) (series df)).

(** The calls that write a file. *)
Definition is_write (ev : event) : bool :=
  match ev with
  | ToCsv _ _ => true
  | _ => false
  end.

(** A run that writes no file. *)
Definition no_write (t : list event) : Prop :=
  Forall (fun ev => is_write ev = false) t.


(** Example data: two graded submissions, a parser that knows them and
    one that knows only the first, and a world in which every
    collaborator succeeds. *)
Definition example_table : DataFrame :=
  {| n_rows := 2;
     series := [("file", [VStr "a.ipynb"; VStr "b.ipynb"]);
                ("q1", [VNum 1; VNum 0]);
                ("q2", [VNum 1; VNum 1])] |}.

Definition example_parser (known : list (string * string)) : Parser :=
  {| file_to_id v :=
       match v with
       | VStr f =>
           match head (filter (fun kv => kv.1 = f) known) with
           | Some kv => Ok (VStr kv.2)
           | None => Raise (KeyError f)
           end
       | VNum _ => Raise (Exception "not a file name")
       end |}.

Definition example_world (parser : Parser) : World :=
  {| prune_images _ := Ok ();
     assert_path_exists _ := Ok ();
     new_parser _ _ := Ok parser;
     launch_grade _ _ _ _ _ _ _ _ _ _ _ := Ok [example_table];
     merge_csv _ := Ok example_table;
     to_csv _ _ := Ok () |}.

Definition example_args (gradescope json : bool) (prune : bool) : Args :=
  {| path := "./subs"; output_dir := "./out"; autograder := "./autograder.zip";
     gradescope := gradescope; canvas := false;
     json := if json then Some "meta.json" else None; yaml := None;
     containers := Some 2%nat; scripts := false; no_kill := false; debug := false;
     zips := false; image := "ucbdsinfra/otter-grader"; pdfs := false;
     verbose := false; prune := prune; force := false |}.

(** A world in which pruning succeeds and every other collaborator
    raises, and arguments that name two metadata sources at once. *)
Definition hostile_world : World :=
  {| prune_images _ := Ok ();
     assert_path_exists _ := Raise (Exception "no such path");
     new_parser _ _ := Raise (Exception "no metadata");
     launch_grade _ _ _ _ _ _ _ _ _ _ _ := Raise (Exception "no docker");
     merge_csv _ := Raise (Exception "nothing to merge");
     to_csv _ _ := Raise (Exception "read-only directory") |}.

Definition conflicting_args (prune : bool) : Args :=
  {| path := "./missing"; output_dir := "./missing"; autograder := "./missing.zip";
     gradescope := true; canvas := true;
     json := Some "meta.json"; yaml := None;
     containers := None; scripts := false; no_kill := false; debug := false;
     zips := false; image := "ucbdsinfra/otter-grader"; pdfs := false;
     verbose := true; prune := prune; force := true |}.

End aggregation.

Import SandboxPool.

Section scheduling.

(** The work a pool still has to do: a queued job has to start and to
    end, a running job has to end. *)
Definition remaining (p : pool) : nat := 2 * count queued p + count running p.

End scheduling.

Section reports.

(** The results of the cases that did not pass, in order. *)
Definition failed_results (rs : list TestCaseResult) : list TestCaseResult :=
  filter (fun r => truth (passed r) = false) rs.

(** A result for the examples: the name of its case, whether the case
    passed, and the message. *)
Definition result_of (n : string) (ok : bool) (msg : string) : TestCaseResult :=
  {| test_case := Some (case n None);
     message := Some msg;
     passed := Some ok;
     result_points := None |}.

(** A test file that has been run, for the examples. *)
Definition graded_file (ok : bool) (rs : list TestCaseResult) : TestFile :=
  {| tf_name := "q1"; tf_path := "tests/q1.py"; test_cases := [];
     values := []; passed_all := Some ok; all_or_nothing := true;
     test_case_results := rs; grade := None |}.

End reports.

Section traces.

(** Kinds of calls. *)
Definition is_print (ev : event) : bool :=
  match ev with
  | PrintLine _ => true
  | _ => false
  end.

Definition is_new_parser (ev : event) : bool :=
  match ev with
  | NewParser _ _ => true
  | _ => false
  end.

(** A run without any call of the kind [P]. *)
Definition never (P : event -> bool) (t : list event) : Prop :=
  Forall (fun ev => P ev = false) t.

(** Example data: a world in which the paths exist and the parser is
    constructed, with the given outcome of [launch_grade] and the given
    merged table. *)
Definition world_with (parser : Parser) (launched : result (list DataFrame))
    (merged : DataFrame) : World :=
  {| prune_images _ := Ok ();
     assert_path_exists _ := Ok ();
     new_parser _ _ := Ok parser;
     launch_grade _ _ _ _ _ _ _ _ _ _ _ := launched;
     merge_csv _ := Ok merged;
     to_csv _ _ := Ok () |}.

(** Example data: a merged table in which a test file is itself called
    [identifier]. *)
Definition table_with_identifier : DataFrame :=
  {| n_rows := 2;
     series := [("file", [VStr "a.ipynb"; VStr "b.ipynb"]);
                ("identifier", [VNum 1; VNum 0]);
                ("q2", [VNum 1; VNum 1])] |}.

End traces.

(** ** Properties of [resolve_point_values] *)

Section resolve_point_values_facts.

Local Open Scope Qc_scope.

(** The loop of [resolve_point_values], after its first [k] iterations,
    has rewritten the first [k] cases and left the others. *)
Lemma resolve_loop_prefix (p : Qc) (cases : list TestCase) (k : nat) :
  (k <= length cases)%nat ->
  fold_left (resolve_step p) (seq 0 k) cases
  = (allocate p <$> take k cases) ++ drop k cases.
Proof.
  induction k as [|k IH]; intros Hk.
  - simpl. rewrite drop_0. reflexivity.
  - rewrite seq_S, fold_left_app, IH by lia. simpl.
    destruct (lookup_lt_is_Some_2 cases k) as [c Hc]; [lia|].
    unfold resolve_step.
    assert (Hlen : length (allocate p <$> take k cases) = k)
      by (rewrite length_fmap, length_take; lia).
    rewrite lookup_app_r by lia.
    rewrite Hlen, Nat.sub_diag, lookup_drop, Nat.add_0_r, Hc.
    rewrite (take_S_r _ _ _ Hc), fmap_app, <- app_assoc. simpl.
    destruct (points c) eqn:Hp.
    + replace (allocate p c) with c by (unfold allocate; rewrite Hp; reflexivity).
      rewrite <- (drop_S _ _ _ Hc). reflexivity.
    + replace (allocate p c) with (_replace_points c p)
        by (unfold allocate; rewrite Hp; reflexivity).
      rewrite insert_app_r_alt by lia.
      rewrite Hlen, Nat.sub_diag, (drop_S _ _ _ Hc). reflexivity.
Qed.

Lemma resolve_loop (p : Qc) (cases : list TestCase) :
  fold_left (resolve_step p) (seq 0 (length cases)) cases = allocate p <$> cases.
Proof.
  rewrite resolve_loop_prefix by lia.
  rewrite firstn_all, drop_all, app_nil_r. reflexivity.
Qed.

(** [resolve_point_values], case by case. *)
Lemma resolve_point_values_eq (value : Qc) (cases : list TestCase) (ctx : string) :
  resolve_point_values value cases ctx =
    if decide (value < explicit_total cases) then
      Raise (ValueError (exceed_message ctx))
    else
      match unspecified cases with
      | O => Raise ZeroDivisionError
      | S _ => Ok (allocate ((value - explicit_total cases)
                              / Qc_of_Z (Z.of_nat (unspecified cases))) <$> cases)
      end.
Proof.
  unfold resolve_point_values, explicit_total, unspecified.
  destruct (decide _); [reflexivity|].
  unfold truediv.
  destruct (length (filter _ _)) eqn:Hn; [reflexivity|].
  simpl. rewrite resolve_loop. reflexivity.
Qed.

Lemma unspecified_cons (c : TestCase) (cases : list TestCase) :
  unspecified (c :: cases)
  = ((if points c is None then 1 else 0) + unspecified cases)%nat.
Proof.
  unfold unspecified. rewrite fmap_cons.
  destruct (points c); [rewrite filter_cons_False by done|rewrite filter_cons_True by done];
    reflexivity.
Qed.

Lemma points_allocate (p : Qc) (c : TestCase) :
  points (allocate p c) = Some (default p (points c)).
Proof. unfold allocate. destruct (points c) eqn:Hp; [exact Hp|reflexivity]. Qed.

Lemma omap_id_Some {A} (l : list A) : omap id (Some <$> l) = l.
Proof.
  induction l as [|x l IH]; [reflexivity|].
  rewrite fmap_cons. simpl. f_equal. exact IH.
Qed.

(** When no case is unspecified, the points of the cases are weights. *)
Lemma unspecified_zero_weights (cases : list TestCase) :
  unspecified cases = 0%nat ->
  exists weights : list Qc, points <$> cases = Some <$> weights.
Proof.
  induction cases as [|c cases IH]; intros Hnone; [exists []; reflexivity|].
  rewrite unspecified_cons in Hnone.
  destruct (points c) as [q|] eqn:Hp; [|discriminate].
  destruct (IH Hnone) as [weights Hw].
  exists (q :: weights). rewrite !fmap_cons, Hp, Hw. reflexivity.
Qed.

Lemma lookup_allocate (p : Qc) (cases : list TestCase) (i : nat) :
  (allocate p <$> cases) !! i = allocate p <$> cases !! i.
Proof. apply list_lookup_fmap. Qed.

End resolve_point_values_facts.

(** Equality of evaluated lists of points: two rationals in lowest terms
    are equal when their fractions are. *)
Ltac Qc_list_eq :=
  repeat first
    [ reflexivity
    | apply (f_equal2 cons)
    | apply (f_equal Some); apply Qc_is_canon; reflexivity ].

Section resolve_point_values_claims.

Local Open Scope Qc_scope.

(** C1.  When no case is unspecified and the explicit points are exactly
    [value], the cases as they are given carry weights that sum to
    [value]; [resolve_point_values] still divides by the number of
    unspecified cases, which is zero, and raises [ZeroDivisionError]
    instead of returning. *)
Theorem resolve_point_values_exact_budget (value : Qc) (cases : list TestCase)
    (ctx : string)
    (Hvalue : 0 < value)
    (Hall : unspecified cases = 0%nat)
    (Hsum : explicit_total cases = value) :
  resolve_point_values value cases ctx = Raise ZeroDivisionError
  /\ exists weights : list Qc,
       points <$> cases = Some <$> weights /\ sum weights = value.
Proof.
  split.
  - rewrite resolve_point_values_eq, Hsum, Hall.
    destruct (decide (value < value)) as [Hlt|_]; [|reflexivity].
    exfalso. revert Hlt. apply Qcle_not_lt, Qcle_refl.
  - destruct (unspecified_zero_weights cases Hall) as [weights Hw].
    exists weights. split; [exact Hw|].
    rewrite <- Hsum. unfold explicit_total. rewrite Hw, omap_id_Some. reflexivity.
Qed.

Lemma resolve_point_values_exact_budget_witness :
  resolve_point_values (Qc_of_Z 10) [case "a" (Some 4%Z); case "b" (Some 6%Z)] "q1"
  = Raise ZeroDivisionError
  /\ exists weights : list Qc,
       points <$> [case "a" (Some 4%Z); case "b" (Some 6%Z)] = Some <$> weights
       /\ sum weights = Qc_of_Z 10.
Proof.
  apply resolve_point_values_exact_budget.
  - reflexivity.
  - vm_compute. reflexivity.
  - apply Qc_is_canon. reflexivity.
Defined.

(** C2.  When every case has explicit points and these do not exceed
    [value], [resolve_point_values] divides by the number of unspecified
    cases, which is zero: it raises [ZeroDivisionError], whatever budget
    remains, and not an explicit allocation error. *)
Theorem resolve_point_values_all_explicit (value : Qc) (cases : list TestCase)
    (ctx : string)
    (Hall : unspecified cases = 0%nat)
    (Hsum : explicit_total cases <= value) :
  resolve_point_values value cases ctx = Raise ZeroDivisionError.
Proof.
  rewrite resolve_point_values_eq.
  destruct (decide _) as [Hlt|_]; [exfalso; by apply Qclt_not_le in Hlt|].
  rewrite Hall. reflexivity.
Qed.

Lemma resolve_point_values_all_explicit_witness :
  (Qc_of_Z 10 - explicit_total [case "a" (Some 4%Z); case "b" (Some 3%Z)] <> 0)
  /\ resolve_point_values (Qc_of_Z 10) [case "a" (Some 4%Z); case "b" (Some 3%Z)] "q1"
     = Raise ZeroDivisionError.
Proof.
  split; [vm_compute; discriminate|].
  apply resolve_point_values_all_explicit.
  - vm_compute. reflexivity.
  - vm_compute. discriminate.
Defined.

(** C3 (as amended).  If the explicit points sum to more than [value],
    [resolve_point_values] raises [ValueError] and nothing else happens.
    The message is the fixed text, followed by [": "] and [ctx] when
    the caller gives a non-empty [ctx]; [TestFile.__init__] gives none,
    so that no test file is constructed and the error carries the fixed
    text alone.  With value 10 and two cases of 6 points the error is
    raised. *)
Theorem resolve_point_values_overallocated (value : Qc) (cases : list TestCase)
    (ctx : string)
    (Hover : value < explicit_total cases) :
  resolve_point_values value cases ctx = Raise (ValueError (exceed_message ctx))
  /\ (ctx <> EmptyString -> exceed_message ctx = exceed_text +:+ ": " +:+ ctx)
  /\ exceed_message EmptyString = exceed_text
  /\ (forall (name path : string) (all_or_nothing : bool),
        __init__ name path cases value all_or_nothing = Raise (ValueError exceed_text))
  /\ resolve_point_values (Qc_of_Z 10) [case "a" (Some 6%Z); case "b" (Some 6%Z)] ctx
     = Raise (ValueError (exceed_message ctx)).
Proof.
  assert (Hraise : forall ctx',
    resolve_point_values value cases ctx' = Raise (ValueError (exceed_message ctx'))).
  { intros ctx'. rewrite resolve_point_values_eq.
    destruct (decide _) as [_|Hn]; [reflexivity|contradiction]. }
  split; [apply Hraise|].
  split; [intros Hctx; unfold exceed_message;
          destruct (decide _); [contradiction|reflexivity]|].
  split; [reflexivity|].
  split; [intros name path all_or_nothing; unfold __init__;
          rewrite Hraise; reflexivity|].
  rewrite resolve_point_values_eq. reflexivity.
Qed.

Lemma resolve_point_values_overallocated_witness :
  resolve_point_values (Qc_of_Z 10) [case "a" (Some 6%Z); case "b" (Some 6%Z)]
    "tests/q1.py"
  = Raise (ValueError
      "Individual test case point values exceed total question value: tests/q1.py").
Proof.
  apply (resolve_point_values_overallocated (Qc_of_Z 10)
           [case "a" (Some 6%Z); case "b" (Some 6%Z)] "tests/q1.py").
  reflexivity.
Defined.

(** C3, as stated, fails: the error raised when a [TestFile] named [q1]
    at [tests/q1.py] is constructed with two cases of 6 points and value
    10 mentions neither the name nor the path of the test file, and
    neither does a direct call that passes no [ctx]. *)
Lemma resolve_point_values_overallocated_counterexample :
  Qc_of_Z 10 < explicit_total [case "a" (Some 6%Z); case "b" (Some 6%Z)]
  /\ __init__ "q1" "tests/q1.py" [case "a" (Some 6%Z); case "b" (Some 6%Z)]
       (Qc_of_Z 10) true
     = Raise (ValueError exceed_text)
  /\ resolve_point_values (Qc_of_Z 10) [case "a" (Some 6%Z); case "b" (Some 6%Z)]
       EmptyString
     = Raise (ValueError exceed_text)
  /\ mentions "q1" exceed_text = false
  /\ mentions "tests/q1.py" exceed_text = false.
Proof. repeat split; reflexivity. Qed.

(** C4 (as amended).  For every [value] and every sequence of test
    cases of which at least one has no explicit points and whose explicit
    points do not exceed [value], [resolve_point_values] returns
    normally and gives each unspecified case exactly
    [(value - sum of explicit points) / count(unspecified cases)]; with
    value 10, two unspecified cases get [5, 5], and an explicit 4 followed
    by two unspecified cases gives [4, 3, 3]. *)
Theorem resolve_point_values_even_split (value : Qc) (cases : list TestCase)
    (ctx : string)
    (Hunspecified : (0 < unspecified cases)%nat)
    (Hsum : explicit_total cases <= value) :
  (exists cases' : list TestCase,
      resolve_point_values value cases ctx = Ok cases'
      /\ length cases' = length cases
      /\ forall (i : nat) (c : TestCase),
           cases !! i = Some c -> points c = None ->
           points <$> cases' !! i
           = Some (Some ((value - explicit_total cases)
                         / Qc_of_Z (Z.of_nat (unspecified cases)))))
  /\ (exists cases' : list TestCase,
        resolve_point_values (Qc_of_Z 10) [case "a" None; case "b" None] ctx = Ok cases'
        /\ points <$> cases' = [Some (Qc_of_Z 5); Some (Qc_of_Z 5)])
  /\ (exists cases' : list TestCase,
        resolve_point_values (Qc_of_Z 10)
          [case "a" (Some 4%Z); case "b" None; case "c" None] ctx = Ok cases'
        /\ points <$> cases'
           = [Some (Qc_of_Z 4); Some (Qc_of_Z 3); Some (Qc_of_Z 3)]).
Proof.
  split; [|split].
  - rewrite resolve_point_values_eq.
    destruct (decide _) as [Hlt|_]; [exfalso; by apply Qclt_not_le in Hlt|].
    destruct (unspecified cases) as [|n] eqn:Hn; [lia|].
    eexists. split; [reflexivity|]. split; [apply length_fmap|].
    intros i c Hi Hp.
    rewrite lookup_allocate, Hi. simpl.
    rewrite points_allocate, Hp. reflexivity.
  - rewrite resolve_point_values_eq. eexists. split; [reflexivity|].
    vm_compute. Qc_list_eq.
  - rewrite resolve_point_values_eq. eexists. split; [reflexivity|].
    vm_compute. Qc_list_eq.
Qed.

Lemma resolve_point_values_even_split_witness :
  exists cases' : list TestCase,
    resolve_point_values (Qc_of_Z 7) [case "a" None; case "b" (Some 1%Z); case "c" None]
      EmptyString = Ok cases'
    /\ length cases' = 3%nat
    /\ forall (i : nat) (c : TestCase),
         [case "a" None; case "b" (Some 1%Z); case "c" None] !! i = Some c ->
         points c = None ->
         points <$> cases' !! i
         = Some (Some ((Qc_of_Z 7
                        - explicit_total [case "a" None; case "b" (Some 1%Z); case "c" None])
                       / Qc_of_Z (Z.of_nat
                           (unspecified [case "a" None; case "b" (Some 1%Z); case "c" None])))).
Proof.
  apply (resolve_point_values_even_split (Qc_of_Z 7)
           [case "a" None; case "b" (Some 1%Z); case "c" None] EmptyString).
  - vm_compute. lia.
  - vm_compute. discriminate.
Defined.

(** C4, as stated, fails: with total 10, an explicit 12 and one
    unspecified case, there is an unspecified case and the call raises
    [ValueError], so that no case is given points. *)
Lemma resolve_point_values_even_split_counterexample :
  (0 < unspecified [case "a" (Some 12%Z); case "b" None])%nat
  /\ resolve_point_values (Qc_of_Z 10) [case "a" (Some 12%Z); case "b" None] EmptyString
     = Raise (ValueError exceed_text)
  /\ ~ exists cases',
         resolve_point_values (Qc_of_Z 10) [case "a" (Some 12%Z); case "b" None]
           EmptyString = Ok cases'.
Proof.
  split; [vm_compute; lia|]. split; [reflexivity|].
  intros [cases' H]. discriminate H.
Qed.

(** C8.  Whenever [resolve_point_values] returns normally, the sequence
    of cases keeps its length and order; a case whose points were given
    is unchanged; a case whose points were not given differs from the
    original in its [points] only, being the tuple [_replace] builds from
    it, and keeps its name, body, visibility and messages. *)
Theorem resolve_point_values_frame (value : Qc) (cases cases' : list TestCase)
    (ctx : string)
    (Hreturns : resolve_point_values value cases ctx = Ok cases') :
  length cases' = length cases
  /\ exists p : Qc,
       forall (i : nat) (c : TestCase), cases !! i = Some c ->
         exists c' : TestCase,
           cases' !! i = Some c'
           /\ (is_Some (points c) -> c' = c)
           /\ (points c = None -> c' = _replace_points c p)
           /\ name c' = name c
           /\ body c' = body c
           /\ hidden c' = hidden c
           /\ success_message c' = success_message c
           /\ failure_message c' = failure_message c.
Proof.
  rewrite resolve_point_values_eq in Hreturns.
  destruct (decide _) as [|_]; [discriminate|].
  destruct (unspecified cases) as [|m] eqn:Hm; [discriminate|].
  injection Hreturns as <-.
  split; [apply length_fmap|].
  eexists. intros i c Hi.
  exists (allocate ((value - explicit_total cases) / Qc_of_Z (Z.of_nat (S m))) c).
  split; [rewrite lookup_allocate, Hi; reflexivity|].
  unfold allocate.
  destruct (points c) as [q|]; repeat split; try reflexivity.
  - intros [=].
  - intros [? [=]].
Qed.

Lemma resolve_point_values_frame_witness :
  length [case "a" (Some 4%Z);
          allocate ((Qc_of_Z 10 - Qc_of_Z 4) / Qc_of_Z 1) (case "b" None)]
  = length [case "a" (Some 4%Z); case "b" None]
  /\ exists p : Qc,
       forall (i : nat) (c : TestCase),
         [case "a" (Some 4%Z); case "b" None] !! i = Some c ->
         exists c' : TestCase,
           [case "a" (Some 4%Z);
            allocate ((Qc_of_Z 10 - Qc_of_Z 4) / Qc_of_Z 1) (case "b" None)] !! i = Some c'
           /\ (is_Some (points c) -> c' = c)
           /\ (points c = None -> c' = _replace_points c p)
           /\ name c' = name c
           /\ body c' = body c
           /\ hidden c' = hidden c
           /\ success_message c' = success_message c
           /\ failure_message c' = failure_message c.
Proof.
  apply (resolve_point_values_frame (Qc_of_Z 10)
           [case "a" (Some 4%Z); case "b" None] _ "q1").
  reflexivity.
Defined.

(** C9.  Every [TestFile] that [__init__] constructs has an empty
    [test_case_results], no [grade] and no [passed_all]; its [test_cases]
    are the cases as [resolve_point_values] leaves them, and its [values]
    are their points, in order. *)
Theorem init_not_run (name path : string) (test_cases0 : list TestCase)
    (value : Qc) (all_or_nothing0 : bool) (tf : TestFile)
    (Hinit : __init__ name path test_cases0 value all_or_nothing0 = Ok tf) :
  test_case_results tf = []
  /\ grade tf = None
  /\ passed_all tf = None
  /\ resolve_point_values value test_cases0 EmptyString = Ok (test_cases tf)
  /\ values tf = points <$> test_cases tf
  /\ tf_name tf = name
  /\ tf_path tf = path
  /\ all_or_nothing tf = all_or_nothing0.
Proof.
  unfold __init__ in Hinit.
  destruct (resolve_point_values value test_cases0 EmptyString) as [cases'|e];
    [|discriminate].
  injection Hinit as <-. repeat split.
Qed.

Lemma init_not_run_witness :
  exists tf : TestFile,
    __init__ "q1" "tests/q1.py" [case "a" (Some 4%Z); case "b" None] (Qc_of_Z 10) true
      = Ok tf
    /\ test_case_results tf = []
    /\ grade tf = None
    /\ passed_all tf = None
    /\ values tf = points <$> test_cases tf.
Proof.
  eexists. split; [reflexivity|].
  pose proof (init_not_run "q1" "tests/q1.py" [case "a" (Some 4%Z); case "b" None]
                (Qc_of_Z 10) true _ eq_refl) as (H1 & H2 & H3 & _ & H5 & _).
  exact (conj H1 (conj H2 (conj H3 H5))).
Defined.

End resolve_point_values_claims.

(** ** Properties of [main] *)

Section data_frame_facts.

Lemma mapM_result_fmap {A B C} (f : B -> result C) (g : A -> B) (l : list A) :
  mapM f (g <$> l) = mapM (f ∘ g) l.
Proof.
  induction l as [|x l IH]; [reflexivity|].
  rewrite fmap_cons. simpl. rewrite IH. reflexivity.
Qed.

(** [mapM] calls [f] on the elements in order: it returns the results
    when every call returns. *)
Lemma mapM_result_Ok {A B} (f : A -> result B) (l : list A) (k : list B) :
  Forall2 (fun x y => f x = Ok y) l k -> mapM f l = Ok k.
Proof.
  induction 1 as [|x y l k Hx _ IH]; [reflexivity|].
  simpl. rewrite Hx. simpl. rewrite IH. reflexivity.
Qed.

(** ... and raises what the first failing call raises. *)
Lemma mapM_result_Raise {A B} (f : A -> result B) (l : list A) (i : nat) (x : A) (e : exn) :
  l !! i = Some x -> f x = Raise e ->
  exists (j : nat) (x' : A) (e' : exn),
    l !! j = Some x' /\ f x' = Raise e' /\ mapM f l = Raise e'.
Proof.
  revert i. induction l as [|y l IH]; intros i Hi Hx; [discriminate|].
  destruct (f y) as [b|e'] eqn:Hy.
  - destruct i as [|i]; [simpl in Hi; congruence|].
    destruct (IH i Hi Hx) as (j & x' & e'' & Hj & Hx' & HM).
    exists (S j), x', e''. split; [exact Hj|]. split; [exact Hx'|].
    simpl. rewrite Hy. simpl. rewrite HM. reflexivity.
  - exists 0%nat, y, e'. split; [reflexivity|]. split; [exact Hy|].
    simpl. rewrite Hy. reflexivity.
Qed.

Lemma mapM_result_seq {A B} (F : nat -> result B) (G : A -> result B)
    (vals : list A) (k : nat) :
  (forall i v, vals !! i = Some v -> F (k + i)%nat = G v) ->
  mapM F (seq k (length vals)) = mapM G vals.
Proof.
  revert k. induction vals as [|v vals IH]; intros k HFG; [reflexivity|].
  simpl. rewrite <- (HFG 0%nat v eq_refl), Nat.add_0_r.
  rewrite (IH (S k)); [reflexivity|].
  intros i v' Hi. rewrite <- (HFG (S i) v' Hi). f_equal. lia.
Qed.

(** In a row of a rectangular table, [row["file"]] is the entry of the
    [file] column. *)
Lemma row_getitem_column (cols : list (string * list value)) (key : string)
    (vals : list value) (i : nat) (v : value) :
  Forall (fun c => (i < length c.2)%nat) cols ->
  snd <$> head (filter (fun c => c.1 = key) cols) = Some vals ->
  vals !! i = Some v ->
  row_getitem (omap (fun c => (fun v => (c.1, v)) <$> c.2 !! i) cols) key = Ok v.
Proof.
  induction 1 as [|[k vs] cols Hlen _ IH]; intros Hcol Hv; [discriminate|].
  simpl in Hlen. destruct (lookup_lt_is_Some_2 vs i Hlen) as [u Hu].
  simpl. rewrite Hu. simpl.
  destruct (decide (k = key)) as [->|Hne].
  - rewrite filter_cons_True in Hcol by reflexivity. simpl in Hcol.
    injection Hcol as ->. congruence.
  - rewrite filter_cons_False in Hcol by exact Hne. exact (IH Hcol Hv).
Qed.

Lemma merged_grade_table_spec (df : DataFrame) :
  merged_grade_table df = true ->
  (0 < n_rows df)%nat
  /\ NoDup (columns df)
  /\ "file" ∈ columns df
  /\ Forall (fun c => length c.2 = n_rows df) (series df).
Proof. apply bool_decide_eq_true_1. Qed.

Lemma column_length (df : DataFrame) (key : string) (vals : list value) :
  Forall (fun c => length c.2 = n_rows df) (series df) ->
  column df key = Some vals -> length vals = n_rows df.
Proof.
  unfold column. intros Hall Hcol.
  destruct (head _) as [c|] eqn:Hhead; [|discriminate].
  injection Hcol as <-.
  apply head_Some_elem_of, list_elem_of_filter in Hhead as [_ Hin].
  rewrite Forall_forall in Hall. exact (Hall c Hin).
Qed.

(** [df.apply(map_files_to_ids, axis=1)] maps [file_to_id] over the
    [file] column. *)
Lemma apply_map_files_to_ids (p : Parser) (df : DataFrame) (files : list value) :
  Forall (fun c => length c.2 = n_rows df) (series df) ->
  column df "file" = Some files ->
  apply_axis1 (map_files_to_ids p) df = mapM (file_to_id p) files.
Proof.
  intros Hall Hcol.
  unfold apply_axis1, rows. rewrite mapM_result_fmap.
  rewrite <- (column_length df "file" files Hall Hcol).
  apply mapM_result_seq. intros i v Hv. simpl.
  unfold map_files_to_ids, row.
  rewrite (row_getitem_column (series df) "file" files i v); [reflexivity| |exact Hcol|exact Hv].
  eapply Forall_impl; [exact Hall|]. intros c Hc. simpl in Hc.
  rewrite Hc, <- (column_length df "file" files Hall Hcol).
  eapply lookup_lt_Some, Hv.
Qed.


Lemma filter_label_absent (cols : list (string * list value)) (key : string) :
  key ∉ cols.*1 -> filter (fun c => c.1 = key) cols = [].
Proof.
  induction cols as [|d cols IH]; intros Hnotin; [reflexivity|].
  rewrite fmap_cons, not_elem_of_cons in Hnotin. destruct Hnotin as [Hne Hnotin].
  rewrite filter_cons_False by (intros Heq; apply Hne; symmetry; exact Heq).
  apply IH, Hnotin.
Qed.

Lemma filter_label_unique (cols : list (string * list value)) (c : string * list value) :
  NoDup cols.*1 -> c ∈ cols -> filter (fun c' => c'.1 = c.1) cols = [c].
Proof.
  induction cols as [|d cols IH]; intros Hnodup Hin; [by apply elem_of_nil in Hin|].
  rewrite fmap_cons in Hnodup. apply NoDup_cons in Hnodup as [Hd Hnodup].
  apply elem_of_cons in Hin as [->|Hin].
  - rewrite filter_cons_True by reflexivity.
    rewrite filter_label_absent by exact Hd. reflexivity.
  - rewrite filter_cons_False.
    + apply IH; assumption.
    + intros Heq. apply Hd. rewrite Heq. apply list_elem_of_fmap_2, Hin.
Qed.

(** [df[keys]] when the labels of [df] are distinct and [keys] are the
    labels of some of its columns: these columns, in the order asked. *)
Lemma getitem_columns_distinct (n : nat) (cols sel : list (string * list value)) :
  NoDup cols.*1 -> (forall c, c ∈ sel -> c ∈ cols) ->
  getitem_columns {| n_rows := n; series := cols |} sel.*1
  = Ok {| n_rows := n; series := sel |}.
Proof.
  intros Hnodup Hsub. unfold getitem_columns. simpl.
  assert (HM : mapM (fun key =>
                 match filter (fun c => c.1 = key) cols with
                 | [] => Raise (KeyError key)
                 | cs => Ok cs
                 end) sel.*1 = Ok ((fun c => [c]) <$> sel)).
  { apply mapM_result_Ok. apply Forall2_fmap, Forall2_same_length_lookup.
    split; [reflexivity|]. intros i c c' Hc Hc'.
    assert (c' = c) as -> by congruence.
    rewrite (filter_label_unique cols c Hnodup); [reflexivity|].
    apply Hsub. eapply list_elem_of_lookup_2, Hc. }
  rewrite HM. simpl. f_equal. f_equal.
  clear. induction sel as [|c sel IH]; [reflexivity|].
  rewrite fmap_cons. simpl. rewrite IH. reflexivity.
Qed.


End data_frame_facts.

Section main_facts.

Lemma no_write_bind {A B} (m : IO A) (k : A -> IO B) :
  no_write m.1 -> (forall x, no_write (k x).1) -> no_write (m ≫= k).1.
Proof.
  intros Hm Hk. destruct m as [t [x|e]]; simpl in *; [|exact Hm].
  specialize (Hk x). destruct (k x) as [t' r]. simpl in *.
  apply Forall_app. split; assumption.
Qed.

Lemma no_write_call {A} (ev : event) (r : result A) :
  is_write ev = false -> no_write (call ev r).1.
Proof. intros Hev. apply Forall_cons. split; [exact Hev|apply Forall_nil_2]. Qed.

Lemma no_write_pure {A} (r : result A) : no_write (pure r).1.
Proof. apply Forall_nil_2. Qed.

Lemma no_write_ret {A} (x : A) : no_write (mret (M := IO) x).1.
Proof. apply Forall_nil_2. Qed.

Lemma no_write_print_if (b : bool) (msg : string) : no_write (print_if b msg).1.
Proof. destruct b; [apply no_write_call; reflexivity|apply no_write_ret]. Qed.

(** Lines 51 to 113 of [main] write no file. *)
Lemma grade_submissions_no_write (w : World) (a : Args) :
  no_write (grade_submissions w a).1.
Proof.
  unfold grade_submissions.
  repeat first
    [ apply no_write_bind; [|intros ?]
    | apply no_write_print_if
    | apply no_write_pure
    | apply no_write_ret
    | apply no_write_call; reflexivity
    | match goal with |- context [if ?b then _ else _] => destruct b end ].
Qed.

(** [main] without [prune], once the tables are merged. *)
Lemma main_after_merge (w : World) (a : Args) (tr : list event)
    (meta_parser : option Parser) (df : DataFrame) :
  prune a = false ->
  grade_submissions w a = (tr, Ok (meta_parser, df)) ->
  main w a =
    match add_identifier meta_parser df with
    | Ok out =>
        (tr ++ [ToCsv (path_join (output_dir a) "final_grades.csv") out],
         to_csv w (path_join (output_dir a) "final_grades.csv") out)
    | Raise e => (tr, Raise e)
    end.
Proof.
  intros Hprune Hgrade. unfold main. rewrite Hprune.
  unfold mbind, IO_bind. rewrite Hgrade. simpl.
  destruct (add_identifier meta_parser df) as [out|e]; simpl.
  - reflexivity.
  - rewrite app_nil_r. reflexivity.
Qed.

End main_facts.

Section main_claims.




(** C6.  Let [main] run without [prune], with a metadata parser, and
    [merge_csv] return the merged grade table [df].  If [file_to_id]
    raises on the file name of some row, then [main] ends with an
    exception that [file_to_id] raised on a row (the first one on which
    it raises), and no file is written. *)
Theorem main_file_to_id_raises (w : World) (a : Args) (tr : list event)
    (p : Parser) (df : DataFrame) (files : list value)
    (i : nat) (file : value) (e : exn)
    (Hprune : prune a = false)
    (Hmerged : grade_submissions w a = (tr, Ok (Some p, df)))
    (Hwf : merged_grade_table df = true)
    (Hfiles : column df "file" = Some files)
    (Hrow : files !! i = Some file)
    (Hraises : file_to_id p file = Raise e) :
  exists (j : nat) (file' : value) (e' : exn),
    files !! j = Some file'
    /\ file_to_id p file' = Raise e'
    /\ main w a = (tr, Raise e')
    /\ no_write (main w a).1.
Proof.
  destruct (mapM_result_Raise (file_to_id p) files i file e Hrow Hraises)
    as (j & file' & e' & Hj & He' & HM).
  exists j, file', e'. split; [exact Hj|]. split; [exact He'|].
  assert (Hmain : main w a = (tr, Raise e')).
  { rewrite (main_after_merge w a tr (Some p) df Hprune Hmerged).
    apply merged_grade_table_spec in Hwf as (_ & _ & _ & Hall).
    unfold add_identifier.
    rewrite (apply_map_files_to_ids p df files Hall Hfiles), HM. reflexivity. }
  split; [exact Hmain|].
  rewrite Hmain. simpl.
  pose proof (grade_submissions_no_write w a) as Hquiet.
  rewrite Hmerged in Hquiet. exact Hquiet.
Qed.

Lemma main_file_to_id_raises_witness :
  exists (j : nat) (file' : value) (e' : exn),
    [VStr "a.ipynb"; VStr "b.ipynb"] !! j = Some file'
    /\ file_to_id (example_parser [("a.ipynb", "alice")]) file' = Raise e'
    /\ main (example_world (example_parser [("a.ipynb", "alice")]))
            (example_args true false false)
       = ([AssertPathExists [("./subs", true); ("./out", true); ("./autograder.zip", false)];
           NewParser GradescopeParser "./subs";
           LaunchGrade "./autograder.zip" "./subs" false (Some 2%nat) false false "./out"
             false false "ucbdsinfra/otter-grader" false;
           MergeCsv [example_table]],
          Raise e')
    /\ no_write (main (example_world (example_parser [("a.ipynb", "alice")]))
                      (example_args true false false)).1.
Proof.
  apply (main_file_to_id_raises
           (example_world (example_parser [("a.ipynb", "alice")]))
           (example_args true false false) _
           (example_parser [("a.ipynb", "alice")]) example_table
           [VStr "a.ipynb"; VStr "b.ipynb"] 1 (VStr "b.ipynb") (KeyError "b.ipynb")).
  - reflexivity.
  - reflexivity.
  - vm_compute. reflexivity.
  - reflexivity.
  - reflexivity.
  - reflexivity.
Defined.

(** C10.  With [prune=True], [main] calls [prune_images(force=force)]
    and returns what it returns: this is its only call, whatever the
    other arguments are, so that no path is checked, no metadata parser
    is constructed, no container is launched and no file is written; the
    assertion on the metadata flags is not evaluated either. *)
Theorem main_prune (w : World) (a : Args)
    (Hprune : prune a = true) :
  main w a = ([PruneImages (force a)], prune_images w (force a))
  /\ no_write (main w a).1
  /\ forall ev : event, ev ∈ (main w a).1 -> ev = PruneImages (force a).
Proof.
  assert (Hmain : main w a = ([PruneImages (force a)], prune_images w (force a))).
  { unfold main. rewrite Hprune. reflexivity. }
  rewrite Hmain. split; [reflexivity|]. split.
  - apply Forall_cons. split; [reflexivity|apply Forall_nil_2].
  - intros ev Hev. simpl in Hev. apply list_elem_of_singleton in Hev. exact Hev.
Qed.

Lemma main_prune_witness :
  main hostile_world (conflicting_args true) = ([PruneImages true], Ok ()).
Proof.
  apply (main_prune hostile_world (conflicting_args true)). reflexivity.
Defined.

(** The arguments of this example are invalid: without [prune] the
    assertion on the metadata flags fails, before any call. *)
Example main_conflicting_flags :
  main hostile_world (conflicting_args false)
  = ([], Raise (AssertionError
                  "You can specify at most one metadata flag (-g, -j, -y, -c)")).
Proof. reflexivity. Qed.

End main_claims.

(** ** Properties of the sandbox pool *)

Section pool_facts.

Lemma count_cons (s x : job_state) (p : pool) :
  count s (x :: p) = ((if decide (x = s) then 1 else 0) + count s p)%nat.
Proof.
  unfold count. destruct (decide (x = s)).
  - rewrite filter_cons_True by assumption. reflexivity.
  - rewrite filter_cons_False by assumption. reflexivity.
Qed.

(** Changing the state of job [i] from [x] to [y] moves one unit of the
    count from [x] to [y]. *)
Lemma count_insert (s x y : job_state) (p : pool) (i : nat) :
  p !! i = Some x ->
  (count s (<[i := y]> p) + (if decide (x = s) then 1 else 0)
   = count s p + (if decide (y = s) then 1 else 0))%nat.
Proof.
  revert i. induction p as [|z p IH]; intros i Hi; [discriminate|].
  destruct i as [|i]; simpl in Hi.
  - injection Hi as ->. simpl. rewrite !count_cons. lia.
  - simpl. rewrite !count_cons. specialize (IH i Hi). lia.
Qed.

Lemma count_replicate_ne (s x : job_state) (n : nat) :
  x <> s -> count s (replicate n x) = 0%nat.
Proof.
  intros Hne. induction n as [|n IH]; [reflexivity|].
  simpl. rewrite count_cons, IH. destruct (decide (x = s)); [contradiction|reflexivity].
Qed.

Lemma count_replicate_eq (s : job_state) (n : nat) : count s (replicate n s) = n.
Proof.
  induction n as [|n IH]; [reflexivity|].
  simpl. rewrite count_cons, IH. destruct (decide (s = s)); [reflexivity|contradiction].
Qed.

Lemma count_pos (s : job_state) (p : pool) :
  (0 < count s p)%nat -> exists i, p !! i = Some s.
Proof.
  induction p as [|x p IH]; [unfold count; simpl; lia|].
  rewrite count_cons. destruct (decide (x = s)) as [->|_].
  - intros _. exists 0%nat. reflexivity.
  - intros Hpos. destruct (IH Hpos) as [i Hi]. exists (S i). exact Hi.
Qed.

Lemma count_zero (s : job_state) (p : pool) :
  count s p = 0%nat -> s ∉ p.
Proof.
  induction p as [|x p IH]; intros Hzero; [apply not_elem_of_nil|].
  rewrite count_cons in Hzero.
  destruct (decide (x = s)) as [|Hne]; [lia|].
  apply not_elem_of_cons. split; [congruence|]. apply IH. lia.
Qed.

Lemma remaining_submit (jobs : nat) : remaining (submit jobs) = (2 * jobs)%nat.
Proof.
  unfold remaining, submit.
  rewrite count_replicate_eq, count_replicate_ne by discriminate. lia.
Qed.

Lemma running_submit (jobs : nat) : count running (submit jobs) = 0%nat.
Proof. apply count_replicate_ne. discriminate. Qed.

(** A step keeps the jobs, keeps the bound on the running jobs, and does
    one unit of the remaining work. *)
Lemma step_invariant (limit : nat) (p p' : pool) (a : action) :
  step limit p a = Some p' ->
  (count running p <= limit)%nat ->
  length p' = length p
  /\ (count running p' <= limit)%nat
  /\ (remaining p' + 1 = remaining p)%nat.
Proof.
  unfold remaining. destruct a as [|i crashed]; simpl; intros Hstep Hbound.
  - destruct (decide (count running p < limit)%nat) as [Hfree|]; [|discriminate].
    destruct (list_find (fun x => x = queued) p) as [[i x]|] eqn:Hfind; [|discriminate].
    injection Hstep as <-.
    apply list_find_Some in Hfind as (Hi & -> & _).
    pose proof (count_insert running queued running p i Hi) as Hr.
    pose proof (count_insert queued queued running p i Hi) as Hq.
    simpl in Hr, Hq. rewrite length_insert. lia.
  - destruct (p !! i) as [[| | |]|] eqn:Hi; try discriminate.
    injection Hstep as <-.
    pose proof (count_insert running running (if crashed then failed else completed) p i Hi)
      as Hr.
    pose proof (count_insert queued running (if crashed then failed else completed) p i Hi)
      as Hq.
    rewrite length_insert. destruct crashed; simpl in Hr, Hq; lia.
Qed.

Lemma run_invariant (limit : nat) (acts : list action) (p p' : pool) :
  run limit p acts = Some p' ->
  (count running p <= limit)%nat ->
  length p' = length p
  /\ (count running p' <= limit)%nat
  /\ (remaining p' + length acts = remaining p)%nat.
Proof.
  revert p. induction acts as [|a acts IH]; intros p Hrun Hbound; simpl in Hrun.
  - injection Hrun as <-. simpl. split; [reflexivity|]. split; [exact Hbound|lia].
  - destruct (step limit p a) as [q|] eqn:Hstep; [|discriminate]. simpl in Hrun.
    destruct (step_invariant limit p q a Hstep Hbound) as (Hlen & Hq & Hwork).
    destruct (IH q Hrun Hq) as (Hlen' & Hp' & Hwork').
    simpl. split; [congruence|]. split; [exact Hp'|lia].
Qed.

(** While work remains, the pool can take a step. *)
Lemma step_progress (limit : nat) (p : pool) :
  (0 < limit)%nat -> (0 < remaining p)%nat ->
  exists (a : action) (p' : pool), step limit p a = Some p'.
Proof.
  intros Hlimit Hwork. unfold remaining in Hwork.
  destruct (decide (0 < count running p)%nat) as [Hrunning|Hidle].
  - destruct (count_pos running p Hrunning) as [i Hi].
    exists (Finish i false). eexists. simpl. rewrite Hi. reflexivity.
  - assert (Hqueued : (0 < count queued p)%nat) by lia.
    destruct (count_pos queued p Hqueued) as [i Hi].
    destruct (list_find_elem_of (fun x => x = queued) p queued) as [[j x] Hfind];
      [eapply list_elem_of_lookup_2, Hi|reflexivity|].
    exists Start. eexists. simpl.
    destruct (decide (count running p < limit)%nat) as [_|Hfull]; [|lia].
    rewrite Hfind. reflexivity.
Qed.

(** When no work remains, every job is completed or failed. *)
Lemma remaining_zero (p : pool) :
  remaining p = 0%nat -> Forall (fun s => terminal s = true) p.
Proof.
  unfold remaining. intros Hzero.
  assert (Hq : queued ∉ p) by (apply count_zero; lia).
  assert (Hr : running ∉ p) by (apply count_zero; lia).
  apply Forall_forall. intros [| | |] Hin; try reflexivity; contradiction.
Qed.

End pool_facts.

Section pool_claims.

(** C7.  For every batch of jobs and every positive
    [concurrency_limit], in every state the pool reaches at most
    [concurrency_limit] jobs are running; the pool keeps all the jobs; it
    can take a step as long as some job is queued or running, takes at
    most two steps for each job, and after that many steps every job is
    completed or failed. *)
Theorem pool_bounded_and_terminating (jobs concurrency_limit : nat)
    (acts : list action) (p : pool)
    (Hlimit : (0 < concurrency_limit)%nat)
    (Hrun : run concurrency_limit (submit jobs) acts = Some p) :
  (count running p <= concurrency_limit)%nat
  /\ length p = jobs
  /\ (length acts <= 2 * jobs)%nat
  /\ ((length acts < 2 * jobs)%nat ->
      exists (a : action) (p' : pool), step concurrency_limit p a = Some p')
  /\ (length acts = (2 * jobs)%nat -> Forall (fun s => terminal s = true) p).
Proof.
  destruct (run_invariant concurrency_limit acts (submit jobs) p Hrun)
    as (Hlen & Hbound & Hwork).
  { rewrite running_submit. lia. }
  rewrite remaining_submit in Hwork.
  unfold submit in Hlen. rewrite length_replicate in Hlen.
  split; [exact Hbound|]. split; [exact Hlen|]. split; [lia|]. split.
  - intros Hmore. apply step_progress; [exact Hlimit|lia].
  - intros Hdone. apply remaining_zero. lia.
Qed.

Lemma pool_bounded_and_terminating_witness :
  (count running [completed; running; running; queued; queued] <= 2)%nat
  /\ length [completed; running; running; queued; queued] = 5%nat
  /\ (length [Start; Start; Finish 0 false; Start] <= 2 * 5)%nat
  /\ ((length [Start; Start; Finish 0 false; Start] < 2 * 5)%nat ->
      exists (a : action) (p' : pool),
        step 2 [completed; running; running; queued; queued] a = Some p')
  /\ (length [Start; Start; Finish 0 false; Start] = (2 * 5)%nat ->
      Forall (fun s => terminal s = true) [completed; running; running; queued; queued]).
Proof.
  apply (pool_bounded_and_terminating 5 2 [Start; Start; Finish 0 false; Start]).
  - lia.
  - reflexivity.
Defined.

(** Five jobs and two slots: a complete run, in which the job started
    second crashes and the others complete. *)
Example pool_five_jobs :
  run 2 (submit 5)
    [Start; Start; Finish 1 true; Start; Finish 0 false; Start;
     Finish 3 false; Start; Finish 2 false; Finish 4 false]
  = Some [completed; failed; completed; completed; completed].
Proof. reflexivity. Qed.

(** With both slots taken, a third job is not started. *)
Example pool_no_third_start :
  run 2 (submit 5) [Start; Start; Start] = None.
Proof. reflexivity. Qed.

End pool_claims.

(** * Further properties

    ** Point allocation *)

Section allocation_facts.

Local Open Scope Qc_scope.

Lemma unspecified_allocate (p : Qc) (cases : list TestCase) :
  unspecified (allocate p <$> cases) = 0%nat.
Proof.
  induction cases as [|c cases IH]; [reflexivity|].
  rewrite fmap_cons, unspecified_cons, points_allocate, IH. reflexivity.
Qed.

(** What a successful call returns: the given cases, allocated one share. *)
Lemma resolve_point_values_Ok (value : Qc) (cases cases' : list TestCase) (ctx : string) :
  resolve_point_values value cases ctx = Ok cases' ->
  exists share : Qc, cases' = allocate share <$> cases.
Proof.
  rewrite resolve_point_values_eq.
  destruct (decide _) as [|_]; [discriminate|].
  destruct (unspecified cases) as [|m]; [discriminate|].
  intros [= <-]. eexists. reflexivity.
Qed.

(** X2.  A test file cannot be constructed without test cases: with an
    empty list, [__init__] raises [ValueError] when [value] is negative
    and [ZeroDivisionError] otherwise. *)
Theorem init_without_cases (name path : string) (value : Qc) (all_or_nothing : bool) :
  __init__ name path [] value all_or_nothing
  = Raise (if decide (value < 0) then ValueError exceed_text else ZeroDivisionError).
Proof.
  unfold __init__. rewrite resolve_point_values_eq.
  change (explicit_total []) with 0.
  destruct (decide (value < 0)); reflexivity.
Qed.

(** X3.  The list left by a successful call cannot be resolved again,
    whatever the value: all its points are explicit, so that a second
    call, or the construction of another test file from the same list,
    raises the [ValueError] of the guard when the points exceed the value,
    and [ZeroDivisionError] otherwise. *)
Theorem resolve_point_values_twice (value : Qc) (cases cases' : list TestCase)
    (ctx : string)
    (Hfirst : resolve_point_values value cases ctx = Ok cases') :
  (forall value' ctx',
     resolve_point_values value' cases' ctx'
     = if decide (value' < explicit_total cases')
       then Raise (ValueError (exceed_message ctx'))
       else Raise ZeroDivisionError)
  /\ (forall (name path : string) (value' : Qc) (all_or_nothing : bool),
        __init__ name path cases' value' all_or_nothing
        = if decide (value' < explicit_total cases')
          then Raise (ValueError exceed_text)
          else Raise ZeroDivisionError).
Proof.
  apply resolve_point_values_Ok in Hfirst as [share ->].
  assert (H : forall value' ctx',
     resolve_point_values value' (allocate share <$> cases) ctx'
     = if decide (value' < explicit_total (allocate share <$> cases))
       then Raise (ValueError (exceed_message ctx'))
       else Raise ZeroDivisionError).
  { intros value' ctx'. rewrite resolve_point_values_eq, unspecified_allocate. reflexivity. }
  split; [exact H|].
  intros name path value' all_or_nothing. unfold __init__. rewrite H.
  destruct (decide _); reflexivity.
Qed.

Lemma resolve_point_values_twice_witness :
  resolve_point_values (Qc_of_Z 10)
    [case "a" (Some 4%Z); allocate ((Qc_of_Z 10 - Qc_of_Z 4) / Qc_of_Z 1) (case "b" None)]
    "q1"
  = Raise ZeroDivisionError
  /\ resolve_point_values (Qc_of_Z 5)
       [case "a" (Some 4%Z); allocate ((Qc_of_Z 10 - Qc_of_Z 4) / Qc_of_Z 1) (case "b" None)]
       "q1"
     = Raise (ValueError (exceed_message "q1")).
Proof.
  pose proof (proj1 (resolve_point_values_twice (Qc_of_Z 10)
                       [case "a" (Some 4%Z); case "b" None] _ "q1" eq_refl)) as H.
  split.
  - exact (H (Qc_of_Z 10) "q1").
  - exact (H (Qc_of_Z 5) "q1").
Defined.

(** X4.  The [values] of every test file that [__init__] constructs hold
    a number for each test case given, never [None], and at a case whose
    points were given, those points. *)
Theorem init_values_numbers (name path : string) (test_cases0 : list TestCase)
    (value : Qc) (all_or_nothing0 : bool) (tf : TestFile)
    (Hinit : __init__ name path test_cases0 value all_or_nothing0 = Ok tf) :
  length (values tf) = length test_cases0
  /\ forall (i : nat) (c : TestCase), test_cases0 !! i = Some c ->
       exists w : Qc,
         values tf !! i = Some (Some w)
         /\ forall q, points c = Some q -> w = q.
Proof.
  unfold __init__ in Hinit.
  destruct (resolve_point_values value test_cases0 EmptyString) as [cases'|e] eqn:Hres;
    [|discriminate].
  injection Hinit as <-. simpl.
  apply resolve_point_values_Ok in Hres as [share ->].
  split; [rewrite !length_fmap; reflexivity|].
  intros i c Hi. exists (default share (points c)).
  rewrite !list_lookup_fmap, Hi. simpl. rewrite points_allocate.
  split; [reflexivity|]. intros q ->. reflexivity.
Qed.

Lemma init_values_numbers_witness :
  exists tf : TestFile,
    __init__ "q1" "tests/q1.py" [case "a" (Some 4%Z); case "b" None; case "c" None]
      (Qc_of_Z 10) true = Ok tf
    /\ length (values tf) = 3%nat
    /\ forall (i : nat) (c : TestCase),
         [case "a" (Some 4%Z); case "b" None; case "c" None] !! i = Some c ->
         exists w : Qc,
           values tf !! i = Some (Some w)
           /\ forall q, points c = Some q -> w = q.
Proof.
  eexists. split; [reflexivity|].
  apply (init_values_numbers "q1" "tests/q1.py"
           [case "a" (Some 4%Z); case "b" None; case "c" None] (Qc_of_Z 10) true).
  reflexivity.
Defined.

End allocation_facts.

(** ** Reports *)

Section report_facts.

Lemma join_cons (x : string) (parts : list string) :
  join (x :: parts) = x +:+ join parts.
Proof. reflexivity. Qed.

Lemma append_empty_r (s : string) : s +:+ EmptyString = s.
Proof.
  induction s as [|a s IH]; [reflexivity|].
  change (String a s +:+ EmptyString) with (String a (s +:+ EmptyString)).
  rewrite IH. reflexivity.
Qed.

(** A loop that prints something for the failed results only prints what
    the same loop prints over the failed results. *)
Lemma join_failed (f : TestCaseResult -> string) (rs : list TestCaseResult) :
  join ((fun r => if negb (truth (passed r)) then f r else EmptyString) <$> rs)
  = join (f <$> failed_results rs).
Proof.
  unfold failed_results.
  induction rs as [|r rs IH]; [reflexivity|].
  rewrite fmap_cons, join_cons, IH. destruct (truth (passed r)) eqn:Hr; simpl.
  - rewrite filter_cons_False by (rewrite Hr; discriminate). reflexivity.
  - rewrite filter_cons_True by exact Hr. rewrite fmap_cons, join_cons. reflexivity.
Qed.

(** X7.  A test file prints as failed until it has been run: the
    [repr] of a file fresh from [__init__] is its name followed by
    [" results:"] and a line break, whatever its test cases are. *)
Theorem repr_not_run (name path : string) (test_cases0 : list TestCase)
    (value : Qc) (all_or_nothing0 : bool) (tf : TestFile)
    (Hinit : __init__ name path test_cases0 value all_or_nothing0 = Ok tf) :
  __repr__ tf = name +:+ " results:" +:+ NL.
Proof.
  unfold __init__ in Hinit.
  destruct (resolve_point_values value test_cases0 EmptyString); [|discriminate].
  injection Hinit as <-.
  unfold __repr__, plain_result_fail_template. simpl.
  change (join []) with EmptyString. rewrite append_empty_r. reflexivity.
Qed.

Lemma repr_not_run_witness :
  exists tf : TestFile,
    __init__ "q1" "tests/q1.py" [case "a" (Some 4%Z); case "b" None] (Qc_of_Z 10) true
      = Ok tf
    /\ __repr__ tf = "q1" +:+ " results:" +:+ NL.
Proof.
  eexists. split; [reflexivity|].
  apply (repr_not_run "q1" "tests/q1.py" [case "a" (Some 4%Z); case "b" None]
           (Qc_of_Z 10) true).
  reflexivity.
Defined.

(** X8.  The [repr] of a test file that did not pass all its cases is the
    header line followed by the messages of the failed cases, each after a
    line break and in the order of the results; a result that passed
    contributes nothing. *)
Theorem repr_failed (tf : TestFile)
    (Hfailed : truth (passed_all tf) = false) :
  __repr__ tf
  = tf_name tf +:+ " results:" +:+ NL
    +:+ join ((fun r => NL +:+ jinja_str (message r))
                <$> failed_results (test_case_results tf)).
Proof.
  unfold __repr__. rewrite Hfailed. unfold plain_result_fail_template.
  rewrite (join_failed (fun r => NL +:+ jinja_str (message r))). reflexivity.
Qed.

Lemma repr_failed_witness :
  __repr__ (graded_file false
              [result_of "a" true "a passed"; result_of "b" false "b: wrong";
               result_of "c" false "c: error"])
  = "q1" +:+ " results:" +:+ NL
    +:+ join [NL +:+ "b: wrong"; NL +:+ "c: error"].
Proof.
  apply (repr_failed (graded_file false
           [result_of "a" true "a passed"; result_of "b" false "b: wrong";
            result_of "c" false "c: error"])).
  reflexivity.
Defined.

(** X9.  The HTML of a test file that did not pass all its cases does not
    depend on which results passed: both branches of the template print
    the message, so two files of the same name whose results agree in
    test case and message have the same HTML. *)
Theorem repr_html_failed_ignores_passed (tf tf' : TestFile)
    (Hfailed : truth (passed_all tf) = false)
    (Hfailed' : truth (passed_all tf') = false)
    (Hname : tf_name tf = tf_name tf')
    (Hresults : Forall2 (fun r r' => test_case r = test_case r' /\ message r = message r')
                  (test_case_results tf) (test_case_results tf')) :
  _repr_html_ tf = _repr_html_ tf'.
Proof.
  unfold _repr_html_. rewrite Hfailed, Hfailed', Hname.
  unfold html_result_fail_template.
  repeat (apply (f_equal2 String.append); [reflexivity|]).
  apply (f_equal2 String.append); [|reflexivity].
  induction Hresults as [|r r' rs rs' [Hcase Hmsg] _ IH]; [reflexivity|].
  rewrite !fmap_cons, !join_cons. apply (f_equal2 String.append); [|exact IH].
  unfold jinja_test_case_name. rewrite Hcase, Hmsg.
  destruct (truth (passed r)), (truth (passed r')); reflexivity.
Qed.

Lemma repr_html_failed_ignores_passed_witness :
  _repr_html_ (graded_file false [result_of "a" true "a: 1"; result_of "b" false "b: 2"])
  = _repr_html_ (graded_file false [result_of "a" false "a: 1"; result_of "b" true "b: 2"]).
Proof.
  apply repr_html_failed_ignores_passed.
  - reflexivity.
  - reflexivity.
  - reflexivity.
  - repeat constructor.
Defined.

(** X18.  The reports of a test file that passed all its cases show the
    message of a result only if that result passed: two such files of the
    same name, whose results agree in test case, in whether they passed,
    and in the message where they passed, have the same [repr] and the
    same HTML. *)
Theorem repr_passed_hides_failed_messages (tf tf' : TestFile)
    (Hpassed : truth (passed_all tf) = true)
    (Hpassed' : truth (passed_all tf') = true)
    (Hname : tf_name tf = tf_name tf')
    (Hresults : Forall2 (fun r r' => test_case r = test_case r'
                                     /\ truth (passed r) = truth (passed r')
                                     /\ (truth (passed r) = true -> message r = message r'))
                  (test_case_results tf) (test_case_results tf')) :
  __repr__ tf = __repr__ tf' /\ _repr_html_ tf = _repr_html_ tf'.
Proof.
  assert (Hblock : html_result_success_template (tf_name tf) (test_case_results tf)
                   = html_result_success_template (tf_name tf') (test_case_results tf')).
  { unfold html_result_success_template.
    repeat (apply (f_equal2 String.append); [reflexivity|]).
    apply (f_equal2 String.append); [|reflexivity].
    induction Hresults as [|r r' rs rs' (Hcase & Hflag & Hmsg) _ IH]; [reflexivity|].
    rewrite !fmap_cons, !join_cons. apply (f_equal2 String.append); [|exact IH].
    unfold jinja_test_case_name. rewrite Hcase, <- Hflag.
    destruct (truth (passed r)); [rewrite Hmsg by reflexivity|]; reflexivity. }
  unfold __repr__, _repr_html_. rewrite Hpassed, Hpassed', Hblock, Hname.
  split; reflexivity.
Qed.

Lemma repr_passed_hides_failed_messages_witness :
  __repr__ (graded_file true [result_of "a" true "a: 1"; result_of "b" false "b: 2"])
  = __repr__ (graded_file true [result_of "a" true "a: 1"; result_of "b" false "other"])
  /\ _repr_html_ (graded_file true [result_of "a" true "a: 1"; result_of "b" false "b: 2"])
     = _repr_html_ (graded_file true [result_of "a" true "a: 1"; result_of "b" false "other"]).
Proof.
  apply repr_passed_hides_failed_messages.
  - reflexivity.
  - reflexivity.
  - reflexivity.
  - repeat constructor; discriminate.
Defined.

End report_facts.

(** ** The run of [main] *)

Section run_facts.

Lemma never_bind {A B} (P : event -> bool) (m : IO A) (k : A -> IO B) :
  never P m.1 -> (forall x, never P (k x).1) -> never P (m ≫= k).1.
Proof.
  intros Hm Hk. destruct m as [t [x|e]]; simpl in *; [|exact Hm].
  specialize (Hk x). destruct (k x) as [t' r]. simpl in *.
  apply Forall_app. split; assumption.
Qed.

Lemma never_call {A} (P : event -> bool) (ev : event) (r : result A) :
  P ev = false -> never P (call ev r).1.
Proof. intros Hev. apply Forall_cons. split; [exact Hev|apply Forall_nil_2]. Qed.

Lemma never_pure {A} (P : event -> bool) (r : result A) : never P (pure r).1.
Proof. apply Forall_nil_2. Qed.

Lemma never_ret {A} (P : event -> bool) (x : A) : never P (mret (M := IO) x).1.
Proof. apply Forall_nil_2. Qed.

Lemma never_print_if_false (P : event -> bool) (msg : string) :
  never P (print_if false msg).1.
Proof. apply Forall_nil_2. Qed.

(** X10.  Without [verbose], [main] itself prints nothing (what the
    collaborators print is not part of the embedding). *)
Theorem main_quiet (w : World) (a : Args)
    (Hverbose : verbose a = false) :
  never is_print (main w a).1.
Proof.
  unfold main, grade_submissions. rewrite Hverbose.
  destruct (prune a); [apply never_call; reflexivity|].
  repeat first
    [ apply never_bind; [|intros ?]
    | apply never_print_if_false
    | apply never_pure
    | apply never_ret
    | apply never_call; reflexivity
    | match goal with |- context [if ?b then _ else _] => destruct b end
    | match goal with |- context [let '(_, _) := ?x in _] => destruct x end ].
Qed.

Lemma main_quiet_witness :
  never is_print
    (main (example_world (example_parser [("a.ipynb", "alice"); ("b.ipynb", "bob")]))
          (example_args true false false)).1.
Proof.
  apply main_quiet. reflexivity.
Defined.

(** X11.  If more than one of [gradescope], [canvas], [json] and [yaml]
    is given (is not [False]), [main] without [prune] raises
    [AssertionError] before it calls anything. *)
Theorem main_conflicting_metadata (w : World) (a : Args)
    (Hprune : prune a = false)
    (Hflags : (1 < sum_bool [gradescope a; canvas a; not_False (json a); not_False (yaml a)])%nat) :
  main w a
  = ([], Raise (AssertionError "You can specify at most one metadata flag (-g, -j, -y, -c)")).
Proof.
  unfold main, grade_submissions. rewrite Hprune.
  apply Nat.leb_gt in Hflags. rewrite Hflags. reflexivity.
Qed.

Lemma main_conflicting_metadata_witness :
  main hostile_world (conflicting_args false)
  = ([], Raise (AssertionError "You can specify at most one metadata flag (-g, -j, -y, -c)")).
Proof.
  apply main_conflicting_metadata.
  - reflexivity.
  - vm_compute. lia.
Defined.

(** X12.  If the check of [path], [output_dir] and [autograder] raises,
    [main] raises the same exception, and that check is its only call: no
    parser is constructed, no container launched, nothing written. *)
Theorem main_missing_path (w : World) (a : Args) (e : exn)
    (Hprune : prune a = false)
    (Hflags : (sum_bool [gradescope a; canvas a; not_False (json a); not_False (yaml a)] <= 1)%nat)
    (Hpaths : assert_path_exists w
                [(path a, true); (output_dir a, true); (autograder a, false)] = Raise e) :
  main w a
  = ([AssertPathExists [(path a, true); (output_dir a, true); (autograder a, false)]],
     Raise e).
Proof.
  unfold main, grade_submissions. rewrite Hprune.
  apply Nat.leb_le in Hflags. rewrite Hflags, Hpaths. reflexivity.
Qed.

Lemma main_missing_path_witness :
  main hostile_world
    {| path := "./missing"; output_dir := "./out"; autograder := "./autograder.zip";
       gradescope := true; canvas := false; json := None; yaml := None;
       containers := None; scripts := false; no_kill := false; debug := false;
       zips := false; image := "ucbdsinfra/otter-grader"; pdfs := false;
       verbose := false; prune := false; force := false |}
  = ([AssertPathExists [("./missing", true); ("./out", true); ("./autograder.zip", false)]],
     Raise (Exception "no such path")).
Proof.
  apply (main_missing_path hostile_world).
  - reflexivity.
  - vm_compute. lia.
  - reflexivity.
Defined.

Lemma main_grading_fails (w : World) (a : Args) (tr : list event) (e : exn) :
  prune a = false -> grade_submissions w a = (tr, Raise e) -> main w a = (tr, Raise e).
Proof.
  intros Hprune Hfails.
  unfold main. rewrite Hprune. unfold mbind, IO_bind. rewrite Hfails. reflexivity.
Qed.

(** X13.  An exception raised before the tables are merged (by a check,
    a parser, [launch_grade] or [merge_csv]) is raised by [main], and
    nothing has been written. *)
Theorem main_failure_propagates (w : World) (a : Args) (tr : list event) (e : exn)
    (Hprune : prune a = false)
    (Hfails : grade_submissions w a = (tr, Raise e)) :
  main w a = (tr, Raise e) /\ never is_write tr.
Proof.
  split; [exact (main_grading_fails w a tr e Hprune Hfails)|].
  pose proof (grade_submissions_no_write w a) as H. rewrite Hfails in H. exact H.
Qed.

Lemma main_failure_propagates_witness :
  main (world_with (example_parser []) (Raise (Exception "no docker")) example_table)
       (example_args true false false)
  = ([AssertPathExists [("./subs", true); ("./out", true); ("./autograder.zip", false)];
      NewParser GradescopeParser "./subs";
      LaunchGrade "./autograder.zip" "./subs" false (Some 2%nat) false false "./out"
        false false "ucbdsinfra/otter-grader" false],
     Raise (Exception "no docker")).
Proof.
  apply main_failure_propagates; reflexivity.
Defined.

(** X14.  [main] writes at most one file, as its last call, and only to
    [final_grades.csv] in [output_dir]: either nothing is written, or the
    run ends with that one write and returns what the write returns. *)
Theorem main_writes_once (w : World) (a : Args) :
  never is_write (main w a).1
  \/ exists (tr : list event) (out : DataFrame),
       main w a = (tr ++ [ToCsv (path_join (output_dir a) "final_grades.csv") out],
                   to_csv w (path_join (output_dir a) "final_grades.csv") out)
       /\ never is_write tr.
Proof.
  destruct (prune a) eqn:Hprune.
  - left. unfold main. rewrite Hprune. apply never_call. reflexivity.
  - pose proof (grade_submissions_no_write w a) as Hquiet.
    destruct (grade_submissions w a) as [tr [[meta_parser df]|e]] eqn:Hgrade.
    + rewrite (main_after_merge w a tr meta_parser df Hprune Hgrade).
      destruct (add_identifier meta_parser df) as [out|e].
      * right. exists tr, out. split; [reflexivity|exact Hquiet].
      * left. exact Hquiet.
    + left. rewrite (main_grading_fails w a tr e Hprune Hgrade). exact Hquiet.
Qed.

Lemma row_getitem_absent (r : list (string * value)) (key : string) :
  key ∉ r.*1 -> row_getitem r key = Raise (KeyError key).
Proof.
  induction r as [|[k v] r IH]; intros Hnotin; [reflexivity|].
  rewrite fmap_cons in Hnotin. apply not_elem_of_cons in Hnotin as [Hne Hnotin].
  simpl. destruct (decide (k = key)) as [->|_]; [contradiction|]. apply IH, Hnotin.
Qed.

Lemma row_labels (df : DataFrame) (i : nat) (key : string) :
  key ∈ (row df i).*1 -> key ∈ columns df.
Proof.
  unfold row, columns. induction (series df) as [|[k vs] cols IH]; simpl.
  - intros []%elem_of_nil.
  - destruct (vs !! i); simpl.
    + intros [->|Hin]%elem_of_cons; [apply list_elem_of_here|].
      apply list_elem_of_further, IH, Hin.
    + intros Hin. apply list_elem_of_further, IH, Hin.
Qed.

(** X15.  With a metadata parser, a merged table that has rows but no
    [file] column makes [main] raise [KeyError('file')], from the first
    row, and nothing is written. *)
Theorem main_no_file_column (w : World) (a : Args) (tr : list event)
    (p : Parser) (df : DataFrame)
    (Hprune : prune a = false)
    (Hmerged : grade_submissions w a = (tr, Ok (Some p, df)))
    (Hrows : (0 < n_rows df)%nat)
    (Hnofile : "file" ∉ columns df) :
  main w a = (tr, Raise (KeyError "file")) /\ never is_write tr.
Proof.
  split.
  - rewrite (main_after_merge w a tr (Some p) df Hprune Hmerged).
    unfold add_identifier, apply_axis1, rows.
    destruct (n_rows df) as [|n]; [lia|].
    assert (Hfirst : map_files_to_ids p (row df 0) = Raise (KeyError "file")).
    { unfold map_files_to_ids. rewrite (row_getitem_absent (row df 0) "file"); [reflexivity|].
      intros Hin. apply Hnofile. eapply row_labels, Hin. }
    simpl. rewrite Hfirst. reflexivity.
  - pose proof (grade_submissions_no_write w a) as H. rewrite Hmerged in H. exact H.
Qed.

Lemma main_no_file_column_witness :
  main (world_with (example_parser []) (Ok [])
          {| n_rows := 1; series := [("q1", [VNum 1])] |})
       (example_args true false false)
  = ([AssertPathExists [("./subs", true); ("./out", true); ("./autograder.zip", false)];
      NewParser GradescopeParser "./subs";
      LaunchGrade "./autograder.zip" "./subs" false (Some 2%nat) false false "./out"
        false false "ucbdsinfra/otter-grader" false;
      MergeCsv []],
     Raise (KeyError "file")).
Proof.
  refine (proj1 (main_no_file_column
                   (world_with (example_parser []) (Ok [])
                      {| n_rows := 1; series := [("q1", [VNum 1])] |})
                   (example_args true false false) _ (example_parser [])
                   {| n_rows := 1; series := [("q1", [VNum 1])] |} eq_refl eq_refl _ _)).
  - simpl. lia.
  - apply (bool_decide_unpack _). vm_compute. exact I.
Defined.

(** X16.  When the tables are merged, a metadata parser has been
    constructed exactly if [gradescope] or [canvas] is set or [json] or
    [yaml] is a non-empty path, and then only one; an empty [json] or
    [yaml] path gives no parser. *)
Theorem main_parser_iff_metadata (w : World) (a : Args) (tr : list event)
    (meta_parser : option Parser) (df : DataFrame)
    (Hmerged : grade_submissions w a = (tr, Ok (meta_parser, df))) :
  (is_Some meta_parser
   <-> gradescope a || canvas a || truthy (json a) || truthy (yaml a) = true)
  /\ (is_Some meta_parser ->
      length (filter (fun ev => is_new_parser ev = true) tr) = 1%nat)
  /\ (meta_parser = None -> never is_new_parser tr).
Proof.
  revert Hmerged. unfold grade_submissions, assert_, print_if, call, pure.
  unfold mbind, IO_bind, mret, IO_ret.
  repeat match goal with
         | |- context [match ?x with _ => _ end] =>
             lazymatch x with
             | context [match _ with _ => _ end] => fail
             | _ => destruct x eqn:?; simpl
             end
         end.
  all: try discriminate.
  all: intros [= <- <- <-].
  all: split; [split|split].
  all: solve [ intros [? [=]] | intros [=] | intros _; reflexivity
             | intros _; eexists; reflexivity | intros _; repeat constructor ].
Qed.

Lemma main_parser_iff_metadata_witness :
  (is_Some (None : option Parser) <-> false || false || truthy (Some EmptyString) || false = true)
  /\ (is_Some (None : option Parser) ->
      length (filter (fun ev => is_new_parser ev = true)
                [AssertPathExists [("./subs", true); ("./out", true);
                                   ("./autograder.zip", false)];
                 LaunchGrade "./autograder.zip" "./subs" false (Some 2%nat) false false
                   "./out" false false "ucbdsinfra/otter-grader" false;
                 MergeCsv [example_table]]) = 1%nat)
  /\ ((None : option Parser) = None ->
      never is_new_parser
        [AssertPathExists [("./subs", true); ("./out", true); ("./autograder.zip", false)];
         LaunchGrade "./autograder.zip" "./subs" false (Some 2%nat) false false
           "./out" false false "ucbdsinfra/otter-grader" false;
         MergeCsv [example_table]]).
Proof.
  apply (main_parser_iff_metadata
           (example_world (example_parser []))
           {| path := "./subs"; output_dir := "./out"; autograder := "./autograder.zip";
              gradescope := false; canvas := false;
              json := Some EmptyString; yaml := None;
              containers := Some 2%nat; scripts := false; no_kill := false; debug := false;
              zips := false; image := "ucbdsinfra/otter-grader"; pdfs := false;
              verbose := false; prune := false; force := false |}
           _ None example_table).
  reflexivity.
Defined.

End run_facts.

(** ** The identifier column, in general *)

Section identifier_facts.

(** With distinct labels, a column is found under its label exactly when
    it is one of the columns. *)
Lemma column_elem_of (cols : list (string * list value)) (key : string)
    (vals : list value) :
  NoDup cols.*1 ->
  snd <$> head (filter (fun c => c.1 = key) cols) = Some vals <-> (key, vals) ∈ cols.
Proof.
  intros Hnodup. split.
  - destruct (head _) as [[k v]|] eqn:Hhead; [|discriminate].
    intros [= <-].
    apply head_Some_elem_of, list_elem_of_filter in Hhead as [Hk Hin].
    simpl in Hk. subst k. exact Hin.
  - intros Hin.
    pose proof (filter_label_unique cols (key, vals) Hnodup Hin) as Hfilter.
    simpl in Hfilter. rewrite Hfilter. reflexivity.
Qed.

Lemma last_first_Permutation {A} (l : list A) : last_first l ≡ₚ l.
Proof.
  unfold last_first. rewrite Permutation_app_comm, take_drop. reflexivity.
Qed.

Lemma last_first_fmap {A B} (f : A -> B) (l : list A) :
  last_first (f <$> l) = f <$> last_first l.
Proof.
  unfold last_first. rewrite length_fmap, fmap_app, fmap_drop, fmap_take. reflexivity.
Qed.

(** [df[key] = vals] keeps the labels distinct, sets the column [key],
    and leaves the other columns alone. *)
Lemma setitem_elem_of (df : DataFrame) (key : string) (vals : list value) :
  NoDup (columns df) ->
  NoDup (columns (setitem df key vals))
  /\ (forall k, k ∈ columns df -> k ∈ columns (setitem df key vals))
  /\ forall k v, (k, v) ∈ series (setitem df key vals)
                 <-> (k = key /\ v = vals) \/ (k <> key /\ (k, v) ∈ series df).
Proof.
  intros Hnodup. unfold setitem, columns in *.
  destruct (decide (key ∈ (series df).*1)) as [Hin|Hnotin]; simpl.
  - assert (Hlabels : ((fun c : string * list value =>
                          if decide (c.1 = key) then (c.1, vals) else c) <$> series df).*1
                      = (series df).*1).
    { rewrite <- list_fmap_compose. apply list_fmap_ext. intros _ c _. simpl.
      destruct (decide (c.1 = key)); reflexivity. }
    rewrite Hlabels. split; [exact Hnodup|]. split; [tauto|].
    intros k v. rewrite list_elem_of_fmap. split.
    + intros ([k' v'] & Heq & Hc). simpl in Heq.
      destruct (decide (k' = key)) as [->|Hne]; injection Heq as -> ->.
      * left. split; reflexivity.
      * right. split; assumption.
    + intros [[-> ->]|[Hne Hc]].
      * apply list_elem_of_fmap in Hin as ([k' v'] & Hk & Hc). simpl in Hk. subst k'.
        exists (key, v'). split; [|exact Hc]. simpl.
        destruct (decide (key = key)); [reflexivity|contradiction].
      * exists (k, v). split; [|exact Hc]. simpl.
        destruct (decide (k = key)); [contradiction|reflexivity].
  - rewrite fmap_app. simpl. split; [|split].
    + apply NoDup_app. split; [exact Hnodup|]. split; [|apply NoDup_singleton].
      intros x Hx ->%list_elem_of_singleton. contradiction.
    + intros k Hk. apply elem_of_app. left. exact Hk.
    + intros k v. rewrite elem_of_app, list_elem_of_singleton. split.
      * intros [Hc|[= -> ->]]; [|left; split; reflexivity].
        right. split; [|exact Hc].
        intros ->. apply Hnotin. apply list_elem_of_fmap. exists (key, v). split; [reflexivity|exact Hc].
      * intros [[-> ->]|[_ Hc]]; [right; reflexivity|left; exact Hc].
Qed.

(** Lines 119 to 126 of [main] on any merged grade table: the table
    returned, by its columns. *)
Lemma add_identifier_elem_of (p : Parser) (df : DataFrame) (files ids : list value) :
  merged_grade_table df = true ->
  column df "file" = Some files ->
  mapM (file_to_id p) files = Ok ids ->
  exists out : DataFrame,
    add_identifier (Some p) df = Ok out
    /\ n_rows out = n_rows df
    /\ NoDup (columns out)
    /\ forall k v, (k, v) ∈ series out
                   <-> k <> "file"
                       /\ ((k = "identifier" /\ v = ids)
                           \/ (k <> "identifier" /\ (k, v) ∈ series df)).
Proof.
  intros (_ & Hnodup & Hfile & Hall)%merged_grade_table_spec Hcol Hids.
  destruct (setitem_elem_of df "identifier" ids Hnodup) as (Hnodup1 & Hkeep & Hmem).
  unfold add_identifier. rewrite (apply_map_files_to_ids p df files Hall Hcol), Hids.
  simpl. set (df1 := setitem df "identifier" ids) in *.
  unfold drop_axis1.
  destruct (decide ("file" ∈ columns df1)) as [_|Hnotin]; [|exfalso; apply Hnotin, Hkeep, Hfile].
  simpl. set (T := filter (fun c : string * list value => c.1 ≠ "file") (series df1)).
  assert (HnodupT : NoDup T.*1).
  { eapply sublist_NoDup; [exact Hnodup1|]. apply fmap_sublist, sublist_filter. }
  unfold columns at 1. simpl. rewrite last_first_fmap.
  rewrite (getitem_columns_distinct (n_rows df1) T (last_first T) HnodupT).
  - exists {| n_rows := n_rows df1; series := last_first T |}.
    split; [reflexivity|]. split; [unfold df1, setitem; destruct (decide _); reflexivity|].
    split.
    + unfold columns. simpl. rewrite <- last_first_fmap, last_first_Permutation. exact HnodupT.
    + intros k v. simpl. rewrite last_first_Permutation. unfold T.
      rewrite list_elem_of_filter, Hmem. simpl. reflexivity.
  - intros c Hc. rewrite last_first_Permutation in Hc. exact Hc.
Qed.

(** X17.  With a metadata parser and any merged grade table, also one
    that already has a column labelled [identifier], the table [main]
    writes has the rows of the merged table, distinct labels, the
    identifiers under [identifier], no [file] column, and every other
    column with its entries unchanged. *)
Theorem main_identifier_preserves_columns (w : World) (a : Args) (tr : list event)
    (p : Parser) (df : DataFrame) (files ids : list value)
    (Hprune : prune a = false)
    (Hmerged : grade_submissions w a = (tr, Ok (Some p, df)))
    (Hwf : merged_grade_table df = true)
    (Hfiles : column df "file" = Some files)
    (Hids : Forall2 (fun file id => file_to_id p file = Ok id) files ids) :
  exists out : DataFrame,
    main w a = (tr ++ [ToCsv (path_join (output_dir a) "final_grades.csv") out],
                to_csv w (path_join (output_dir a) "final_grades.csv") out)
    /\ n_rows out = n_rows df
    /\ NoDup (columns out)
    /\ column out "identifier" = Some ids
    /\ column out "file" = None
    /\ forall key, key <> "file" -> key <> "identifier" ->
                   column out key = column df key.
Proof.
  destruct (add_identifier_elem_of p df files ids Hwf Hfiles (mapM_result_Ok _ _ _ Hids))
    as (out & Hout & Hrows & Hnodup & Hmem).
  apply merged_grade_table_spec in Hwf as (_ & Hnodup0 & _ & _).
  exists out. rewrite (main_after_merge w a tr (Some p) df Hprune Hmerged), Hout.
  split; [reflexivity|]. split; [exact Hrows|]. split; [exact Hnodup|].
  unfold column, columns in *. split; [|split].
  - apply (column_elem_of _ _ _ Hnodup), Hmem. split; [discriminate|]. left. split; reflexivity.
  - destruct (snd <$> head (filter (fun c => c.1 = "file") (series out))) as [v|] eqn:Hv;
      [|reflexivity].
    apply (column_elem_of _ _ _ Hnodup), Hmem in Hv as [Hne _]. contradiction.
  - intros key Hfile Hid. apply option_eq. intros v.
    rewrite (column_elem_of _ _ _ Hnodup), (column_elem_of _ _ _ Hnodup0), Hmem.
    split.
    + intros (_ & [[-> _]|[_ Hin]]); [contradiction|exact Hin].
    + intros Hin. split; [exact Hfile|]. right. split; assumption.
Qed.

Lemma main_identifier_preserves_columns_witness :
  exists out : DataFrame,
    main (world_with (example_parser [("a.ipynb", "alice"); ("b.ipynb", "bob")])
                     (Ok [table_with_identifier]) table_with_identifier)
         (example_args true false false)
    = ([AssertPathExists [("./subs", true); ("./out", true); ("./autograder.zip", false)];
        NewParser GradescopeParser "./subs";
        LaunchGrade "./autograder.zip" "./subs" false (Some 2%nat) false false "./out"
          false false "ucbdsinfra/otter-grader" false;
        MergeCsv [table_with_identifier]]
       ++ [ToCsv "./out/final_grades.csv" out],
       Ok ())
    /\ n_rows out = 2%nat
    /\ NoDup (columns out)
    /\ column out "identifier" = Some [VStr "alice"; VStr "bob"]
    /\ column out "file" = None
    /\ forall key, key <> "file" -> key <> "identifier" ->
                   column out key = column table_with_identifier key.
Proof.
  refine (main_identifier_preserves_columns
            (world_with (example_parser [("a.ipynb", "alice"); ("b.ipynb", "bob")])
                        (Ok [table_with_identifier]) table_with_identifier)
            (example_args true false false) _
            (example_parser [("a.ipynb", "alice"); ("b.ipynb", "bob")])
            table_with_identifier
            [VStr "a.ipynb"; VStr "b.ipynb"] [VStr "alice"; VStr "bob"]
            eq_refl eq_refl _ eq_refl _).
  - vm_compute. reflexivity.
  - repeat constructor.
Defined.

(** On that table the identifiers overwrite the column of the test file
    called [identifier], and the column moved to the front is the last
    one, not [identifier]. *)
Example add_identifier_existing_column :
  exists out : DataFrame,
    add_identifier (Some (example_parser [("a.ipynb", "alice"); ("b.ipynb", "bob")]))
      table_with_identifier = Ok out
    /\ columns out = ["q2"; "identifier"]
    /\ column out "identifier" = Some [VStr "alice"; VStr "bob"].
Proof. eexists. repeat split. Qed.

End identifier_facts.
